(** * Shallow embedding of the stm32f30x-hal clock-tree solver ([rcc.rs])
    and of the GPIO pin transitions ([gpio.rs]).

    Machine integers are [Z] values; [u32] arithmetic that can wrap is
    written out with [mod 2^32] (the release profile's wrapping semantics),
    while the panics that Rust performs in every profile (division by zero,
    [unreachable!()], failed [assert!]) are explicit results. *)

From Stdlib Require Import ZArith Bool List Lia.
Import ListNotations.
Open Scope Z_scope.

(* ------------------------------------------------------------------ *)
(** ** Results of code that may panic *)

Inductive panic_reason :=
| AssertSysclk      (* assert!(sysclk <= 72_000_000), rcc.rs:156 *)
| AssertHclk        (* assert!(hclk <= 72_000_000),   rcc.rs:175 *)
| AssertPclk1       (* assert!(pclk1 <= 36_000_000),  rcc.rs:191 *)
| AssertPclk2       (* assert!(pclk2 <= 72_000_000),  rcc.rs:207 *)
| Unreachable       (* the [0 => unreachable!()] match arms *)
| DivByZero.        (* u32 division by a zero target frequency *)

Inductive result (A : Type) :=
| Ok (a : A)
| Panic (why : panic_reason).
Arguments Ok {A} a.
Arguments Panic {A} why.

Definition bind {A B} (m : result A) (k : A -> result B) : result B :=
  match m with
  | Ok a => k a
  | Panic r => Panic r
  end.

Notation "'let*' x := m 'in' k" := (bind m (fun x => k))
  (at level 200, x name, m at level 100, k at level 200).

Definition assert (b : bool) (why : panic_reason) : result unit :=
  if b then Ok tt else Panic why.

(** [Option::map(f).unwrap_or(d)] where [f] may panic. *)
Definition map_unwrap_or {A B} (o : option A) (f : A -> result B) (d : B)
  : result B :=
  match o with
  | Some a => f a
  | None => Ok d
  end.

(* ------------------------------------------------------------------ *)
(** ** u32 arithmetic *)

Definition u32_wrap (x : Z) : Z := x mod 2 ^ 32.

(** [a / b] on [u32]: panics when [b = 0]. *)
Definition u32_div (a b : Z) : result Z :=
  if b =? 0 then Panic DivByZero else Ok (a / b).

Definition u32_not (x : Z) : Z := Z.lxor x (Z.ones 32).

Module Rcc.

(** [const HSI: u32 = 8_000_000; // Hz] *)
Definition HSI : Z := 8000000.

(** [pub struct CFGR] *)
Record CFGR := mkCFGR {
  hclk : option Z;
  pclk1 : option Z;
  pclk2 : option Z;
  sysclk : option Z
}.

(** [RccExt::constraint] builds the empty configuration. *)
Definition cfgr_default : CFGR := mkCFGR None None None None.

(** The fluent setters. *)
Definition set_hclk (c : CFGR) (f : Z) : CFGR :=
  mkCFGR (Some f) (pclk1 c) (pclk2 c) (sysclk c).
Definition set_pclk1 (c : CFGR) (f : Z) : CFGR :=
  mkCFGR (hclk c) (Some f) (pclk2 c) (sysclk c).
Definition set_pclk2 (c : CFGR) (f : Z) : CFGR :=
  mkCFGR (hclk c) (pclk1 c) (Some f) (sysclk c).
Definition set_sysclk (c : CFGR) (f : Z) : CFGR :=
  mkCFGR (hclk c) (pclk1 c) (pclk2 c) (Some f).

(** [pub struct Clocks] *)
Record Clocks := mkClocks {
  c_hclk : Z;
  c_pclk1 : Z;
  c_pclk2 : Z;
  c_ppre1 : Z;
  c_ppre2 : Z;
  c_sysclk : Z
}.

Definition unwrap_or (o : option Z) (d : Z) : Z :=
  match o with Some x => x | None => d end.

(** rcc.rs:146-147 *)
Definition pllmul_of (c : CFGR) : Z :=
  let pllmul := u32_wrap (2 * unwrap_or (sysclk c) HSI) / HSI in
  Z.min (Z.max pllmul 2) 16.

(** rcc.rs:148-152 *)
Definition pllmul_bits_of (pllmul : Z) : option Z :=
  if pllmul =? 2 then None else Some (pllmul - 2).

(** rcc.rs:159-170: the match on [sysclk / hclk]. *)
Definition hpre_of_ratio (r : Z) : result Z :=
  if r =? 0 then Panic Unreachable
  else if r =? 1 then Ok 7            (* 0b0111 *)
  else if r =? 2 then Ok 8            (* 0b1000 *)
  else if r <=? 5 then Ok 9           (* 0b1001 *)
  else if r <=? 11 then Ok 10         (* 0b1010 *)
  else if r <=? 39 then Ok 11         (* 0b1011 *)
  else if r <=? 95 then Ok 12         (* 0b1100 *)
  else if r <=? 191 then Ok 13        (* 0b1101 *)
  else if r <=? 383 then Ok 14        (* 0b1110 *)
  else Ok 15.                         (* 0b1111 *)

(** rcc.rs:178-185 and 194-201: the match on [hclk / pclkN]. *)
Definition ppre_of_ratio (r : Z) : result Z :=
  if r =? 0 then Panic Unreachable
  else if r =? 1 then Ok 3            (* 0b011 *)
  else if r =? 2 then Ok 4            (* 0b100 *)
  else if r <=? 5 then Ok 5           (* 0b101 *)
  else if r <=? 11 then Ok 6          (* 0b110 *)
  else Ok 7.                          (* 0b111 *)

(** Everything [freeze] computes before its first register write. *)
Record plan := mkPlan {
  p_pllmul : Z;
  p_pllmul_bits : option Z;
  p_sysclk : Z;
  p_hpre_bits : Z;
  p_hclk : Z;
  p_ppre1_bits : Z;
  p_ppre1 : Z;
  p_pclk1 : Z;
  p_ppre2_bits : Z;
  p_ppre2 : Z;
  p_pclk2 : Z
}.

(** rcc.rs:158-171 *)
Definition hpre_bits_of (c : CFGR) (sysclk : Z) : result Z :=
  map_unwrap_or (hclk c)
    (fun hclk => let* r := u32_div sysclk hclk in hpre_of_ratio r) 7.

(** rcc.rs:177-186 and 193-202 *)
Definition ppre_bits_of (target : option Z) (hclk : Z) : result Z :=
  map_unwrap_or target
    (fun pclk => let* r := u32_div hclk pclk in ppre_of_ratio r) 3.

(** rcc.rs:146-207: the computing part of [freeze]; no register is
    written before it has finished. *)
Definition freeze_compute (c : CFGR) : result plan :=
  let pllmul := pllmul_of c in
  let pllmul_bits := pllmul_bits_of pllmul in
  let sysclk := pllmul * HSI / 2 in
  let* _ := assert (sysclk <=? 72000000) AssertSysclk in
  let* hpre_bits := hpre_bits_of c sysclk in
  let hclk := sysclk / Z.shiftl 1 (hpre_bits - 7) in
  let* _ := assert (hclk <=? 72000000) AssertHclk in
  let* ppre1_bits := ppre_bits_of (pclk1 c) hclk in
  let ppre1 := Z.shiftl 1 (ppre1_bits - 3) in
  let pclk1 := hclk / ppre1 in
  let* _ := assert (pclk1 <=? 36000000) AssertPclk1 in
  let* ppre2_bits := ppre_bits_of (pclk2 c) hclk in
  let ppre2 := Z.shiftl 1 (ppre2_bits - 3) in
  let pclk2 := hclk / ppre2 in
  let* _ := assert (pclk2 <=? 72000000) AssertPclk2 in
  Ok (mkPlan pllmul pllmul_bits sysclk hpre_bits hclk
             ppre1_bits ppre1 pclk1 ppre2_bits ppre2 pclk2).

(** Register accesses performed by [freeze], in program order. *)
Inductive event :=
| ACR_write_latency (lat : Z)                    (* acr.acr().write *)
| CFGR_write_pllmul (bits : Z)                   (* rcc.cfgr.write(pllmul) *)
| CR_write_pllon                                 (* rcc.cr.write(pllon) *)
| CR_read_pllrdy (rdy : bool)                    (* rcc.cr.read().pllrdy() *)
| CFGR_modify_pre_sw (ppre2 ppre1 hpre sw : Z)   (* rcc.cfgr.modify(..) *)
| CFGR_write_pre_sw (ppre2 ppre1 hpre sw : Z).   (* rcc.cfgr.write(..) *)

(** rcc.rs:212-218 *)
Definition latency (sysclk : Z) : Z :=
  if sysclk <=? 24000000 then 0
  else if sysclk <=? 48000000 then 1
  else 2.

(** rcc.rs:230: [while rcc.cr.read().pllrdy().bit_is_clear() {}].
    [rdy] lists what the hardware answers to successive reads; the second
    component tells whether a set bit was seen (the loop exited). *)
Fixpoint spin_pllrdy (rdy : list bool) : list event * bool :=
  match rdy with
  | [] => ([], false)
  | b :: rest =>
      if b then ([CR_read_pllrdy true], true)
      else let '(t, locked) := spin_pllrdy rest in
           (CR_read_pllrdy false :: t, locked)
  end.

(** How one execution of [freeze] ends. *)
Inductive outcome :=
| Returned (trace : list event) (clocks : Clocks)
| Panicked (trace : list event) (why : panic_reason)
| Spinning (trace : list event).  (* still polling PLLRDY *)

Definition trace_of (o : outcome) : list event :=
  match o with
  | Returned t _ | Panicked t _ | Spinning t => t
  end.

Definition clocks_of_plan (p : plan) : Clocks :=
  mkClocks (p_hclk p) (p_pclk1 p) (p_pclk2 p) (p_ppre1 p) (p_ppre2 p)
           (p_sysclk p).

(** rcc.rs:209-266: the hardware commit. *)
Definition freeze_commit (p : plan) (rdy : list bool) : outcome :=
  let t0 := [ACR_write_latency (latency (p_sysclk p))] in
  match p_pllmul_bits p with
  | Some bits =>
      let '(polls, locked) := spin_pllrdy rdy in
      let t1 := t0 ++ [CFGR_write_pllmul bits; CR_write_pllon] ++ polls in
      if locked then
        Returned
          (t1 ++ [CFGR_modify_pre_sw (p_ppre2_bits p) (p_ppre1_bits p)
                                     (p_hpre_bits p) 2])
          (clocks_of_plan p)
      else Spinning t1
  | None =>
      Returned
        (t0 ++ [CFGR_write_pre_sw (p_ppre2_bits p) (p_ppre1_bits p)
                                  (p_hpre_bits p) 0])
        (clocks_of_plan p)
  end.

(** [CFGR::freeze]: [rdy] are the PLLRDY values the hardware reports. *)
Definition freeze (c : CFGR) (rdy : list bool) : outcome :=
  match freeze_compute c with
  | Panic why => Panicked [] why
  | Ok p => freeze_commit p rdy
  end.

End Rcc.
Module Gpio.

(** The per-bank registers touched by the pin code ([odr] is read,
    [bsrr] is write-only: its writes are logged, latest first). *)
Record gpio_regs := mkRegs {
  moder : Z;
  otyper : Z;
  pupdr : Z;
  afrl : Z;
  afrh : Z;
  odr : Z;
  bsrr_log : list Z
}.

Definition set_moder (r : gpio_regs) (v : Z) : gpio_regs :=
  mkRegs v (otyper r) (pupdr r) (afrl r) (afrh r) (odr r) (bsrr_log r).
Definition set_otyper (r : gpio_regs) (v : Z) : gpio_regs :=
  mkRegs (moder r) v (pupdr r) (afrl r) (afrh r) (odr r) (bsrr_log r).
Definition set_pupdr (r : gpio_regs) (v : Z) : gpio_regs :=
  mkRegs (moder r) (otyper r) v (afrl r) (afrh r) (odr r) (bsrr_log r).
Definition set_afrl (r : gpio_regs) (v : Z) : gpio_regs :=
  mkRegs (moder r) (otyper r) (pupdr r) v (afrh r) (odr r) (bsrr_log r).
Definition set_afrh (r : gpio_regs) (v : Z) : gpio_regs :=
  mkRegs (moder r) (otyper r) (pupdr r) (afrl r) v (odr r) (bsrr_log r).
(** [bsrr.write(|w| w.bits(v))] *)
Definition write_bsrr (r : gpio_regs) (v : Z) : gpio_regs :=
  mkRegs (moder r) (otyper r) (pupdr r) (afrl r) (afrh r) (odr r)
         (v :: bsrr_log r).

(** The [$AFR] column of the [gpio!] tables. *)
Inductive AFR := AFRL | AFRH.

(** One row [$PXi: ($i, $MODE, $AFR)] of a [gpio!] invocation. *)
Record pin := mkPin { pin_i : Z; pin_afr : AFR }.

Definition read_afr (a : AFR) (r : gpio_regs) : Z :=
  match a with AFRL => afrl r | AFRH => afrh r end.
Definition write_afr (a : AFR) (r : gpio_regs) (v : Z) : gpio_regs :=
  match a with AFRL => set_afrl r v | AFRH => set_afrh r v end.

Definition row (i : Z) : pin := mkPin i (if i <? 8 then AFRL else AFRH).

(** gpio.rs:493-598, the pin tables of the six banks. *)
Definition GPIOA : list pin := map row [0;1;2;3;4;5;6;7;8;9;10;11;12].
Definition GPIOB : list pin :=
  map row [0;1;2;5;6;7;8;9;10;11;12;13;14;15].
Definition GPIOC : list pin :=
  map row [0;1;2;3;4;5;6;7;8;9;10;11;12;13;14;15].
Definition GPIOD : list pin := GPIOC.
Definition GPIOE : list pin := GPIOC.
Definition GPIOF : list pin := map row [0;1;2;4;6;9;10].

Definition banks : list (list pin) := [GPIOA; GPIOB; GPIOC; GPIOD; GPIOE; GPIOF].

(** [moder.moder().modify(|r, w| w.bits((r.bits() & !(0b11 << offset)) | (mode << offset)))] *)
Definition moder_set_mode (r : gpio_regs) (offset mode : Z) : gpio_regs :=
  set_moder r (Z.lor (Z.land (moder r) (u32_not (Z.shiftl 3 offset)))
                     (Z.shiftl mode offset)).

(** [as_af4] .. [as_af7] (gpio.rs:238-328), with [af] their constant. *)
Definition as_af (af : Z) (p : pin) (r : gpio_regs) : gpio_regs :=
  let offset := 2 * pin_i p in
  let mode := 2 in
  let r := moder_set_mode r offset mode in
  let offset := 4 * (pin_i p mod 8) in
  write_afr (pin_afr p) r
    (Z.lor (Z.land (read_afr (pin_afr p) r) (u32_not (Z.shiftl 15 offset)))
           (Z.shiftl af offset)).

Definition as_af7 : pin -> gpio_regs -> gpio_regs := as_af 7.

(** gpio.rs:331-349 *)
Definition as_floating_input (p : pin) (r : gpio_regs) : gpio_regs :=
  let offset := 2 * pin_i p in
  let r := set_moder r (Z.land (moder r) (u32_not (Z.shiftl 3 offset))) in
  set_pupdr r (Z.land (pupdr r) (u32_not (Z.shiftl 3 offset))).

(** gpio.rs:416-435 *)
Definition as_push_pull_output (p : pin) (r : gpio_regs) : gpio_regs :=
  let offset := 2 * pin_i p in
  let mode := 1 in
  let r := moder_set_mode r offset mode in
  set_otyper r (Z.land (otyper r) (u32_not (Z.shiftl 1 (pin_i p)))).

(** The 2-bit mode field of pin [j] in a MODER value. *)
Definition mode_field (v j : Z) : Z := Z.land (Z.shiftr v (2 * j)) 3.

(** [embedded_hal::digital::OutputPin] *)
Class OutputPin (P : Type) := {
  is_high : P -> gpio_regs -> bool;
  is_low : P -> gpio_regs -> bool;
  set_high : P -> gpio_regs -> gpio_regs;
  set_low : P -> gpio_regs -> gpio_regs
}.

(** [$PXi<Output<MODE>>]: the index is the type's [$i]. *)
Record PXi := mkPXi { pxi_pin : pin }.

(** [$PXx<Output<MODE>>]: the partially erased pin, [i: u8]. *)
Record PXx := mkPXx { i : Z }.

(** gpio.rs:468-487, [impl OutputPin for $PXi<Output<MODE>>] *)
Definition PXi_is_low (p : PXi) (r : gpio_regs) : bool :=
  Z.land (odr r) (Z.shiftl 1 (pin_i (pxi_pin p))) =? 0.
Definition PXi_is_high (p : PXi) (r : gpio_regs) : bool :=
  negb (PXi_is_low p r).
Definition PXi_set_high (p : PXi) (r : gpio_regs) : gpio_regs :=
  write_bsrr r (Z.shiftl 1 (pin_i (pxi_pin p))).
Definition PXi_set_low (p : PXi) (r : gpio_regs) : gpio_regs :=
  write_bsrr r (Z.shiftl 1 (16 + pin_i (pxi_pin p))).

#[global] Instance OutputPin_PXi : OutputPin PXi := {
  is_high := PXi_is_high; is_low := PXi_is_low;
  set_high := PXi_set_high; set_low := PXi_set_low
}.

(** gpio.rs:209-228, [impl OutputPin for $PXx<Output<MODE>>] *)
Definition PXx_is_low (p : PXx) (r : gpio_regs) : bool :=
  Z.land (odr r) (Z.shiftl 1 (i p)) =? 0.
Definition PXx_is_high (p : PXx) (r : gpio_regs) : bool :=
  negb (PXx_is_low p r).
Definition PXx_set_high (p : PXx) (r : gpio_regs) : gpio_regs :=
  write_bsrr r (Z.shiftl 1 (i p)).
Definition PXx_set_low (p : PXx) (r : gpio_regs) : gpio_regs :=
  write_bsrr r (Z.shiftl 1 (16 + i p)).

#[global] Instance OutputPin_PXx : OutputPin PXx := {
  is_high := PXx_is_high; is_low := PXx_is_low;
  set_high := PXx_set_high; set_low := PXx_set_low
}.

(** Well-formedness of a table row: index in 0..15 and the AFR half
    that holds its nibble. *)
Definition AFR_beq (a b : AFR) : bool :=
  match a, b with
  | AFRL, AFRL | AFRH, AFRH => true
  | _, _ => false
  end.

Definition pin_ok (p : pin) : bool :=
  (0 <=? pin_i p) && (pin_i p <? 16) &&
  AFR_beq (pin_afr p) (if pin_i p <? 8 then AFRL else AFRH).

(** gpio.rs:460-465 *)
Definition downgrade (p : PXi) : PXx := mkPXx (pin_i (pxi_pin p)).

(** gpio.rs:238-305: [as_af4], [as_af5], [as_af6]. *)
Definition as_af4 : pin -> gpio_regs -> gpio_regs := as_af 4.
Definition as_af5 : pin -> gpio_regs -> gpio_regs := as_af 5.
Definition as_af6 : pin -> gpio_regs -> gpio_regs := as_af 6.

(** gpio.rs:352-370 *)
Definition as_pull_down_input (p : pin) (r : gpio_regs) : gpio_regs :=
  let offset := 2 * pin_i p in
  let r := set_moder r (Z.land (moder r) (u32_not (Z.shiftl 3 offset))) in
  set_pupdr r (Z.lor (Z.land (pupdr r) (u32_not (Z.shiftl 3 offset)))
                     (Z.shiftl 2 offset)).

(** gpio.rs:373-391 *)
Definition as_pull_up_input (p : pin) (r : gpio_regs) : gpio_regs :=
  let offset := 2 * pin_i p in
  let r := set_moder r (Z.land (moder r) (u32_not (Z.shiftl 3 offset))) in
  set_pupdr r (Z.lor (Z.land (pupdr r) (u32_not (Z.shiftl 3 offset)))
                     (Z.shiftl 1 offset)).

(** gpio.rs:394-413 *)
Definition as_open_drain_output (p : pin) (r : gpio_regs) : gpio_regs :=
  let offset := 2 * pin_i p in
  let mode := 1 in
  let r := moder_set_mode r offset mode in
  set_otyper r (Z.lor (otyper r) (Z.shiftl 1 (pin_i p))).

(** gpio.rs:440-452, [internal_pull_up] of an open-drain output pin. *)
Definition internal_pull_up (p : pin) (on : bool) (r : gpio_regs)
  : gpio_regs :=
  let offset := 2 * pin_i p in
  set_pupdr r (Z.lor (Z.land (pupdr r) (u32_not (Z.shiftl 3 offset)))
                     (if on then Z.shiftl 1 offset else 0)).

(** The mode tags a pin can be moved to, one per [as_*] transition. *)
Inductive mode :=
| FloatingInput | PullDownInput | PullUpInput
| OpenDrainOutput | PushPullOutput
| AltFn4 | AltFn5 | AltFn6 | AltFn7.

Definition into_mode (m : mode) : pin -> gpio_regs -> gpio_regs :=
  match m with
  | FloatingInput => as_floating_input
  | PullDownInput => as_pull_down_input
  | PullUpInput => as_pull_up_input
  | OpenDrainOutput => as_open_drain_output
  | PushPullOutput => as_push_pull_output
  | AltFn4 => as_af4
  | AltFn5 => as_af5
  | AltFn6 => as_af6
  | AltFn7 => as_af7
  end.

(** The 2-bit pull field of pin [j] in a PUPDR value. *)
Definition pupd_field (v j : Z) : Z := Z.land (Z.shiftr v (2 * j)) 3.

(** The bit [1 << i] of OTYPER. *)
Definition otype_bit (v j : Z) : bool := Z.testbit v j.

(** The 4-bit alternate-function nibble of pin [j] in its AFR half. *)
Definition af_nibble (r : gpio_regs) (a : AFR) (j : Z) : Z :=
  Z.land (Z.shiftr (read_afr a r) (4 * (j mod 8))) 15.

(** The AHB enable and reset registers touched by [split]. *)
Record ahb_regs := mkAhb { ahbenr : Z; ahbrstr : Z }.

(** gpio.rs:130-145, the register part of [GpioExt::split]: [ken] and
    [krst] are the bit positions of the bank's [$iopxenr] and [$iopxrst]
    fields, which the register-definition crate fixes. Each [modify]
    rewrites the whole register with one bit changed; the returned list
    holds the values written, in order. *)
Definition split (ken krst : Z) (a : ahb_regs) : ahb_regs * list Z :=
  let enr := Z.lor (ahbenr a) (Z.shiftl 1 ken) in
  let rst1 := Z.lor (ahbrstr a) (Z.shiftl 1 krst) in
  let rst2 := Z.land rst1 (u32_not (Z.shiftl 1 krst)) in
  (mkAhb enr rst2, [enr; rst1; rst2]).

End Gpio.

(** The bit footprint of a register update [f]: either it changes nothing,
    or it sets the bits [o .. o + w - 1] (inside the 32-bit register) to
    values that do not depend on the old contents, and every other bit
    keeps its value or, above bit 31, may be cleared. *)
Definition field_local (f : Z -> Z) (o w : Z) : Prop :=
  (forall v, f v = v) \/
  (0 <= o /\ 0 <= w /\ o + w <= 32 /\
   exists c k : Z -> bool,
     (forall q, q < 32 -> k q = true) /\
     forall v q, 0 <= q ->
       Z.testbit (f v) q
       = if (o <=? q) && (q <? o + w) then c q else Z.testbit v q && k q).

(* ------------------------------------------------------------------ *)
(** ** Readings of the specification, to compare with the code *)

Module SpecReading.
Import Rcc.

(** [round_up(a / b)] for non-negative [a] and positive [b]. *)
Definition round_up_div (a b : Z) : Z := (a + b - 1) / b.

(** The multiplier as the specification words it:
    [clamp(round_up(2 * t / osc_freq), 2, 16)]. *)
Definition pllmul_round_up (t : Z) : Z :=
  Z.min (Z.max (round_up_div (2 * t) HSI) 2) 16.

(** The AHB prescaler ladder of the specification. *)
Definition ahb_ladder : list Z := [1; 2; 4; 8; 16; 64; 128; 256; 512].

(** The smallest ladder divider [d] with [sysclk / d <= target]. *)
Definition ahb_div_smallest (sysclk target : Z) : option Z :=
  find (fun d => sysclk / d <=? target) ahb_ladder.

End SpecReading.

(** The configuration [cfgr.sysclk(48.mhz())]. *)
Definition cfg48 : Rcc.CFGR := Rcc.set_sysclk Rcc.cfgr_default 48000000.

(** The divider by which [freeze] derives the AHB clock from an HPRE code
    (rcc.rs:173). *)
Definition ahb_divider (hpre_bits : Z) : Z := Z.shiftl 1 (hpre_bits - 7).

(** The AHB clock [freeze] derives from a configuration (rcc.rs:146-173),
    the parent clock of APB1 and APB2. *)
Definition ahb_clock_of (c : Rcc.CFGR) : result Z :=
  let sysclk := Rcc.pllmul_of c * Rcc.HSI / 2 in
  let* hpre_bits := Rcc.hpre_bits_of c sysclk in
  Ok (sysclk / ahb_divider hpre_bits).

(* ================================================================== *)
(** * Properties of the clock-tree solver *)

Module RccFacts.
Import Rcc.

Lemma pllmul_of_bounds (c : CFGR) : 2 <= pllmul_of c <= 16.
Proof. unfold pllmul_of; lia. Qed.

Lemma sysclk_bounds (c : CFGR) :
  8000000 <= pllmul_of c * HSI / 2 <= 64000000.
Proof.
  pose proof (pllmul_of_bounds c) as H. unfold HSI.
  replace (pllmul_of c * 8000000) with (pllmul_of c * 4000000 * 2) by ring.
  rewrite Z.div_mul by lia. lia.
Qed.

Lemma hpre_of_ratio_range (r b : Z) : hpre_of_ratio r = Ok b -> 7 <= b <= 15.
Proof.
  unfold hpre_of_ratio; intros H.
  repeat match type of H with
         | context [if ?t then _ else _] => destruct t
         end; inversion H; lia.
Qed.

Lemma ppre_of_ratio_range (r b : Z) : ppre_of_ratio r = Ok b -> 3 <= b <= 7.
Proof.
  unfold ppre_of_ratio; intros H.
  repeat match type of H with
         | context [if ?t then _ else _] => destruct t
         end; inversion H; lia.
Qed.

Lemma hpre_bits_of_range (c : CFGR) (s b : Z) :
  hpre_bits_of c s = Ok b -> 7 <= b <= 15.
Proof.
  unfold hpre_bits_of, map_unwrap_or, u32_div.
  destruct (hclk c) as [h|]; [|intros H; inversion H; lia].
  destruct (h =? 0); simpl; [discriminate|apply hpre_of_ratio_range].
Qed.

Lemma ppre_bits_of_range (t : option Z) (h b : Z) :
  ppre_bits_of t h = Ok b -> 3 <= b <= 7.
Proof.
  unfold ppre_bits_of, map_unwrap_or, u32_div.
  destruct t as [x|]; [|intros H; inversion H; lia].
  destruct (x =? 0); simpl; [discriminate|apply ppre_of_ratio_range].
Qed.

Lemma div_shiftl_le (a k : Z) : 0 <= a -> 0 <= k -> a / Z.shiftl 1 k <= a.
Proof.
  intros Ha Hk. rewrite Z.shiftl_1_l.
  apply Z.div_le_upper_bound; [apply Z.pow_pos_nonneg; lia|].
  pose proof (Z.pow_pos_nonneg 2 k ltac:(lia) Hk). nia.
Qed.

Lemma div_shiftl_nonneg (a k : Z) : 0 <= a -> 0 <= k -> 0 <= a / Z.shiftl 1 k.
Proof.
  intros Ha Hk. rewrite Z.shiftl_1_l.
  apply Z.div_pos; [lia|apply Z.pow_pos_nonneg; lia].
Qed.

(** What a successful [freeze_compute] has computed. *)
Lemma freeze_compute_inv (c : CFGR) (p : plan) :
  freeze_compute c = Ok p ->
  p_pllmul p = pllmul_of c /\
  p_pllmul_bits p = pllmul_bits_of (pllmul_of c) /\
  p_sysclk p = pllmul_of c * HSI / 2 /\
  hpre_bits_of c (p_sysclk p) = Ok (p_hpre_bits p) /\
  p_hclk p = p_sysclk p / ahb_divider (p_hpre_bits p) /\
  ppre_bits_of (pclk1 c) (p_hclk p) = Ok (p_ppre1_bits p) /\
  p_ppre1 p = Z.shiftl 1 (p_ppre1_bits p - 3) /\
  p_pclk1 p = p_hclk p / p_ppre1 p /\
  p_pclk1 p <= 36000000 /\
  ppre_bits_of (pclk2 c) (p_hclk p) = Ok (p_ppre2_bits p) /\
  p_ppre2 p = Z.shiftl 1 (p_ppre2_bits p - 3) /\
  p_pclk2 p = p_hclk p / p_ppre2 p.
Proof.
  unfold freeze_compute, bind, assert, ahb_divider.
  destruct (pllmul_of c * HSI / 2 <=? 72000000); [|discriminate].
  destruct (hpre_bits_of c _) as [hb|] eqn:Eh; [|discriminate].
  destruct (_ / Z.shiftl 1 (hb - 7) <=? 72000000); [|discriminate].
  destruct (ppre_bits_of (pclk1 c) _) as [b1|] eqn:E1; [|discriminate].
  destruct (_ / Z.shiftl 1 (b1 - 3) <=? 36000000) eqn:Ep1; [|discriminate].
  destruct (ppre_bits_of (pclk2 c) _) as [b2|] eqn:E2; [|discriminate].
  destruct (_ / Z.shiftl 1 (b2 - 3) <=? 72000000); [|discriminate].
  intros H; inversion H; subst; simpl.
  apply Z.leb_le in Ep1. repeat split; auto.
Qed.

(** Case analysis on the [if] chains of the ratio tables. *)
Ltac split_ifs H :=
  repeat match type of H with
         | context [if ?t then _ else _] =>
             let E := fresh "E" in destruct t eqn:E
         end;
  rewrite ?Z.eqb_eq, ?Z.eqb_neq, ?Z.leb_le, ?Z.leb_gt in *.

(** A returning [freeze] reports the clocks it computed. *)
Lemma freeze_returned_inv (c : CFGR) (rdy : list bool) tr clk :
  freeze c rdy = Returned tr clk ->
  exists p, freeze_compute c = Ok p /\ clk = clocks_of_plan p.
Proof.
  unfold freeze. destruct (freeze_compute c) as [p|]; [|discriminate].
  unfold freeze_commit. destruct (p_pllmul_bits p).
  - destruct (spin_pllrdy rdy) as [t []]; [|discriminate].
    intros H; inversion H; eauto.
  - intros H; inversion H; eauto.
Qed.

Lemma spin_pllrdy_shape (rdy : list bool) :
  exists n, fst (spin_pllrdy rdy)
            = repeat (CR_read_pllrdy false) n
              ++ (if snd (spin_pllrdy rdy) then [CR_read_pllrdy true] else []).
Proof.
  induction rdy as [|b rest IH]; [exists O; reflexivity|].
  simpl. destruct b; [exists O; reflexivity|].
  destruct (spin_pllrdy rest) as [t locked]. destruct IH as [n Hn].
  exists (S n). simpl in *. rewrite Hn. reflexivity.
Qed.

Lemma hpre_bits_of_panic (c : CFGR) (s : Z) why :
  hpre_bits_of c s = Panic why -> why = Unreachable \/ why = DivByZero.
Proof.
  unfold hpre_bits_of, map_unwrap_or, u32_div, bind.
  destruct (hclk c) as [h|]; [|discriminate].
  destruct (h =? 0); [intros H; inversion H; auto|].
  unfold hpre_of_ratio. intros H. split_ifs H; inversion H; auto.
Qed.

Lemma ppre_bits_of_panic (t : option Z) (h : Z) why :
  ppre_bits_of t h = Panic why -> why = Unreachable \/ why = DivByZero.
Proof.
  unfold ppre_bits_of, map_unwrap_or, u32_div, bind.
  destruct t as [x|]; [|discriminate].
  destruct (x =? 0); [intros H; inversion H; auto|].
  unfold ppre_of_ratio. intros H. split_ifs H; inversion H; auto.
Qed.

(** The commit phase never panics: every panic of [freeze] comes from its
    computing phase and happens before any register write. *)
Lemma freeze_panicked_inv (c : CFGR) (rdy : list bool) tr why :
  freeze c rdy = Panicked tr why -> tr = [] /\ freeze_compute c = Panic why.
Proof.
  unfold freeze. destruct (freeze_compute c) as [p|w].
  - unfold freeze_commit. destruct (p_pllmul_bits p); [|discriminate].
    destruct (spin_pllrdy rdy) as [t []]; discriminate.
  - intros H; inversion H; auto.
Qed.

Lemma ahb_clock_of_nonneg (c : CFGR) (hc : Z) :
  ahb_clock_of c = Ok hc -> 0 <= hc.
Proof.
  unfold ahb_clock_of, bind.
  destruct (hpre_bits_of c _) as [b|] eqn:Eb; [|discriminate].
  intros H; inversion H; subst. apply hpre_bits_of_range in Eb.
  pose proof (sysclk_bounds c). unfold ahb_divider.
  apply div_shiftl_nonneg; lia.
Qed.

End RccFacts.

Module RccClaims.
Import Rcc RccFacts SpecReading.

(** C1 (counterexample): for a requested system clock of 9 MHz the code
    takes the multiplier [2 * 9 / 8 = 2] (rounded down), not
    [round_up(2 * 9 / 8) = 3], so the system clock stays at 8 MHz. *)
Lemma C1_counterexample :
  pllmul_of (set_sysclk cfgr_default 9000000) = 2 /\
  pllmul_round_up 9000000 = 3 /\
  pllmul_of (set_sysclk cfgr_default 9000000)
    <> pllmul_round_up 9000000.
Proof. vm_compute. split; [reflexivity|split; [reflexivity|discriminate]]. Qed.

(** C1 (amended): for a requested system clock [t < 2^31] the multiplier
    is [floor(2 * t / 8_000_000)] clamped into [2, 16]; without a request
    it is 2. Whenever [freeze] returns, the reported system clock is
    [pllmul * 8_000_000 / 2], and the multiplier is 2 exactly when the PLL
    is bypassed: the only writes are the flash latency 0 and one CFGR write
    selecting the 8 MHz internal oscillator (SW = 0), and the system clock
    is 8 MHz. *)
Theorem C1_pllmul_floor_clamped (c : CFGR) (rdy : list bool) :
  (forall t, sysclk c = Some t -> 0 <= t < 2 ^ 31 ->
     pllmul_of c = Z.min (Z.max (2 * t / HSI) 2) 16) /\
  (sysclk c = None -> pllmul_of c = 2) /\
  (forall tr clk, freeze c rdy = Returned tr clk ->
     c_sysclk clk = pllmul_of c * HSI / 2 /\
     (pllmul_of c = 2 <->
        c_sysclk clk = HSI /\
        exists pp2 pp1 hp, tr = [ACR_write_latency 0;
                                 CFGR_write_pre_sw pp2 pp1 hp 0])).
Proof.
  split; [|split].
  - intros t Ht Hb. unfold pllmul_of, unwrap_or, u32_wrap. rewrite Ht.
    rewrite Z.mod_small by lia. reflexivity.
  - intros Hn. unfold pllmul_of, unwrap_or, u32_wrap. rewrite Hn. reflexivity.
  - intros tr clk. unfold freeze.
    destruct (freeze_compute c) as [p|] eqn:Ec; [|discriminate].
    apply freeze_compute_inv in Ec.
    destruct Ec as (Hm & Hb & Hs & _).
    unfold freeze_commit. rewrite Hb. unfold pllmul_bits_of.
    destruct (pllmul_of c =? 2) eqn:E2.
    + apply Z.eqb_eq in E2. intros H; inversion H; subst; clear H. simpl.
      rewrite Hs, E2. split; [reflexivity|].
      split; [intros _|intros; reflexivity].
      split; [reflexivity|]. do 3 eexists. reflexivity.
    + apply Z.eqb_neq in E2.
      destruct (spin_pllrdy rdy) as [polls []]; [|discriminate].
      intros H; inversion H; subst; clear H. simpl.
      split; [exact Hs|]. split; [intros; contradiction|].
      intros [_ (pp2 & pp1 & hp & Ht)].
      destruct polls; simpl in Ht; discriminate.
Qed.

(** Witness for C1 at [sysclk = 36 MHz] with the PLL locking at once. *)
Lemma C1_pllmul_floor_clamped_witness :
  pllmul_of (set_sysclk cfgr_default 36000000) = 9 /\
  (forall tr clk, freeze (set_sysclk cfgr_default 36000000) [true]
                    = Returned tr clk ->
     c_sysclk clk = 9 * HSI / 2).
Proof.
  destruct (C1_pllmul_floor_clamped (set_sysclk cfgr_default 36000000) [true])
    as [H1 [_ H3]].
  assert (E : pllmul_of (set_sysclk cfgr_default 36000000) = 9)
    by (rewrite (H1 36000000 eq_refl ltac:(lia)); reflexivity).
  split; [exact E|].
  intros tr clk H. destruct (H3 tr clk H) as [Hs _]. rewrite Hs, E.
  reflexivity.
Defined.

(** C2 (counterexample): with no system clock request (8 MHz) and an
    AHB target of 5 MHz, the ratio [8 / 5 = 1] selects divider 1, so the
    AHB clock is 8 MHz, above the target; the smallest ladder divider
    keeping it at or below 5 MHz is 2. *)
Lemma C2_counterexample :
  freeze (set_hclk cfgr_default 5000000) []
    = Returned [ACR_write_latency 0; CFGR_write_pre_sw 3 3 7 0]
               (mkClocks 8000000 8000000 8000000 1 1 8000000) /\
  ahb_divider 7 = 1 /\
  8000000 > 5000000 /\
  ahb_div_smallest 8000000 5000000 = Some 2.
Proof. vm_compute. repeat split; reflexivity || discriminate. Qed.

(** C2 (amended): whenever [freeze] returns, the AHB clock it reports is
    the system clock when no AHB target was given; with a target [h] and
    [r = sysclk / h < 40], it is [sysclk / d] with [d] picked from [r] by
    nearest-divider buckets: r = 1 gives 1, r = 2 gives 2, 3..5 give 4,
    6..11 give 8 and 12..39 give 16. *)
Theorem C2_ahb_divider_buckets (c : CFGR) (rdy : list bool) tr clk :
  freeze c rdy = Returned tr clk ->
  (hclk c = None -> c_hclk clk = c_sysclk clk) /\
  (forall h, hclk c = Some h ->
     let r := c_sysclk clk / h in
     r < 40 ->
     exists d, c_hclk clk = c_sysclk clk / d /\
       (r = 1 -> d = 1) /\ (r = 2 -> d = 2) /\ (3 <= r <= 5 -> d = 4) /\
       (6 <= r <= 11 -> d = 8) /\ (12 <= r <= 39 -> d = 16)).
Proof.
  intros Hf. apply freeze_returned_inv in Hf. destruct Hf as (p & Hc & ->).
  apply freeze_compute_inv in Hc.
  destruct Hc as (_ & _ & _ & Hh & Hhc & _). simpl.
  unfold hpre_bits_of, map_unwrap_or in Hh. split.
  - intros Hn. rewrite Hn in Hh. inversion Hh as [Hb].
    rewrite Hhc, <- Hb. unfold ahb_divider. simpl. apply Z.div_1_r.
  - intros h Hs. cbv zeta. intros Hr. rewrite Hs in Hh.
    unfold u32_div, bind in Hh.
    destruct (h =? 0); [discriminate|].
    exists (ahb_divider (p_hpre_bits p)). split; [exact Hhc|].
    unfold hpre_of_ratio in Hh. split_ifs Hh;
      try discriminate Hh; injection Hh as Hb; rewrite <- Hb;
      unfold ahb_divider; simpl;
      repeat split; intros; lia.
Qed.

(** Witness for C2: no system clock request, AHB target 4 MHz (ratio 2). *)
Lemma C2_ahb_divider_buckets_witness :
  c_hclk (mkClocks 4000000 4000000 4000000 1 1 8000000) = 8000000 / 2.
Proof.
  destruct (C2_ahb_divider_buckets (set_hclk cfgr_default 4000000) []
              [ACR_write_latency 0; CFGR_write_pre_sw 3 3 8 0]
              (mkClocks 4000000 4000000 4000000 1 1 8000000)
              ltac:(vm_compute; reflexivity)) as [_ H].
  destruct (H 4000000 eq_refl ltac:(vm_compute; reflexivity))
    as (d & Hd & _ & H2 & _).
  rewrite (H2 eq_refl) in Hd. exact Hd.
Defined.

(** C3 (counterexample): with [sysclk = 48 MHz] and nothing else the APB1
    assertion fails before any register is written, so no flash latency
    (in particular not 1 wait state) is written. *)
Lemma C3_counterexample :
  freeze cfg48 [true] = Panicked [] AssertPclk1 /\
  ~ In (ACR_write_latency 1) (trace_of (freeze cfg48 [true])).
Proof. vm_compute. split; [reflexivity|intros []]. Qed.

(** C3 (amended): with [sysclk = 48 MHz] and no other target, [pllmul] is
    12, the system clock 48 MHz, the AHB, APB1 and APB2 dividers default
    to 1 (48 MHz each), and [freeze] aborts at the 36 MHz APB1 assertion
    before writing any register; the flash latency it would have written
    for 48 MHz is 1 wait state. *)
Theorem C3_sysclk48_aborts_at_apb1 (rdy : list bool) :
  pllmul_of cfg48 = 12 /\
  pllmul_of cfg48 * HSI / 2 = 48000000 /\
  hpre_bits_of cfg48 48000000 = Ok 7 /\
  48000000 / ahb_divider 7 = 48000000 /\
  ppre_bits_of (pclk1 cfg48) 48000000 = Ok 3 /\
  ppre_bits_of (pclk2 cfg48) 48000000 = Ok 3 /\
  48000000 / Z.shiftl 1 (3 - 3) = 48000000 /\
  latency 48000000 = 1 /\
  freeze cfg48 rdy = Panicked [] AssertPclk1.
Proof. repeat split; reflexivity. Qed.

(** C4: every execution of [freeze] either aborts before writing any
    register, or first writes the flash latency for the achieved system
    clock. After it, in bypass, comes the single CFGR write of the three
    prescalers with SW = HSI; otherwise the PLL multiplier is written, the
    PLL enabled, PLLRDY read until it is set, and only then one CFGR
    modify writes the three prescalers with SW = PLL (while PLLRDY stays
    clear the routine keeps polling and never switches). *)
Theorem C4_flash_latency_then_pll_lock_then_switch (c : CFGR) (rdy : list bool) :
  (exists why, freeze c rdy = Panicked [] why) \/
  exists p, freeze_compute c = Ok p /\
    let lat := ACR_write_latency (latency (p_sysclk p)) in
    (p_pllmul_bits p = None ->
       freeze c rdy
       = Returned [lat; CFGR_write_pre_sw (p_ppre2_bits p) (p_ppre1_bits p)
                                          (p_hpre_bits p) 0]
                  (clocks_of_plan p)) /\
    (forall b, p_pllmul_bits p = Some b ->
       exists n,
         freeze c rdy
         = Returned ([lat; CFGR_write_pllmul b; CR_write_pllon]
                     ++ repeat (CR_read_pllrdy false) n
                     ++ [CR_read_pllrdy true;
                         CFGR_modify_pre_sw (p_ppre2_bits p) (p_ppre1_bits p)
                                            (p_hpre_bits p) 2])
                    (clocks_of_plan p) \/
         freeze c rdy
         = Spinning ([lat; CFGR_write_pllmul b; CR_write_pllon]
                     ++ repeat (CR_read_pllrdy false) n)).
Proof.
  unfold freeze. destruct (freeze_compute c) as [p|why].
  - right. exists p. split; [reflexivity|]. cbv zeta. split.
    + intros Hn. unfold freeze_commit. rewrite Hn. reflexivity.
    + intros b Hb. unfold freeze_commit. rewrite Hb.
      pose proof (spin_pllrdy_shape rdy) as [n Hn].
      destruct (spin_pllrdy rdy) as [t []]; simpl in Hn; subst t; exists n.
      * left. simpl. rewrite <- app_assoc. reflexivity.
      * right. simpl. rewrite app_nil_r. reflexivity.
  - left. exists why. reflexivity.
Qed.

(** C5: the achieved system clock never exceeds 64 MHz, so [freeze] never
    aborts at the system-clock, AHB or APB2 limit checks; the APB1 check is
    reachable (48 MHz with default dividers). *)
Theorem C5_only_apb1_limit_reachable (c : CFGR) (rdy : list bool) :
  pllmul_of c * HSI / 2 <= 64000000 /\
  (forall tr why, freeze c rdy = Panicked tr why ->
     why <> AssertSysclk /\ why <> AssertHclk /\ why <> AssertPclk2) /\
  freeze cfg48 rdy = Panicked [] AssertPclk1.
Proof.
  pose proof (sysclk_bounds c) as Hs.
  split; [lia|]. split; [|reflexivity].
  intros tr why Hf. apply freeze_panicked_inv in Hf as [_ Hf].
  revert Hf. unfold freeze_compute, bind, assert.
  replace (pllmul_of c * HSI / 2 <=? 72000000) with true
    by (symmetry; apply Z.leb_le; lia).
  destruct (hpre_bits_of c _) as [hb|w] eqn:Eh;
    [|intros H; inversion H; subst;
      apply hpre_bits_of_panic in Eh;
      destruct Eh as [-> | ->]; repeat split; discriminate].
  apply hpre_bits_of_range in Eh.
  pose proof (div_shiftl_le (pllmul_of c * HSI / 2) (hb - 7) ltac:(lia)
                ltac:(lia)) as Hh.
  pose proof (div_shiftl_nonneg (pllmul_of c * HSI / 2) (hb - 7) ltac:(lia)
                ltac:(lia)) as Hh0.
  set (hc := pllmul_of c * HSI / 2 / Z.shiftl 1 (hb - 7)) in *.
  replace (hc <=? 72000000) with true by (symmetry; apply Z.leb_le; lia).
  destruct (ppre_bits_of (pclk1 c) hc) as [b1|w] eqn:E1;
    [|intros H; inversion H; subst;
      apply ppre_bits_of_panic in E1;
      destruct E1 as [-> | ->]; repeat split; discriminate].
  destruct (hc / Z.shiftl 1 (b1 - 3) <=? 36000000);
    [|intros H; inversion H; subst; repeat split; discriminate].
  destruct (ppre_bits_of (pclk2 c) hc) as [b2|w] eqn:E2;
    [|intros H; inversion H; subst;
      apply ppre_bits_of_panic in E2;
      destruct E2 as [-> | ->]; repeat split; discriminate].
  apply ppre_bits_of_range in E2.
  pose proof (div_shiftl_le hc (b2 - 3) Hh0 ltac:(lia)).
  replace (hc / Z.shiftl 1 (b2 - 3) <=? 72000000) with true
    by (symmetry; apply Z.leb_le; lia).
  discriminate.
Qed.

(** C6: with no target at all, [freeze] writes flash latency 0, then one
    CFGR write with all prescalers at divider 1 and SW = HSI (the PLL is
    neither programmed nor enabled), and reports 8 MHz for every clock. *)
Theorem C6_no_targets (rdy : list bool) :
  freeze cfgr_default rdy
  = Returned [ACR_write_latency 0; CFGR_write_pre_sw 3 3 7 0]
             (mkClocks 8000000 8000000 8000000 1 1 8000000).
Proof. reflexivity. Qed.

(** C7: a derived clock target strictly above its parent makes the ratio
    zero and [freeze] aborts (at the [unreachable!()] arm for AHB and APB1;
    for APB2 an earlier APB1 abort may come first), never returning. *)
Theorem C7_ratio_zero_aborts (c : CFGR) (rdy : list bool) :
  (forall h, hclk c = Some h -> pllmul_of c * HSI / 2 < h ->
     freeze c rdy = Panicked [] Unreachable) /\
  (forall t hc, pclk1 c = Some t -> ahb_clock_of c = Ok hc -> hc < t ->
     freeze c rdy = Panicked [] Unreachable) /\
  (forall t hc, pclk2 c = Some t -> ahb_clock_of c = Ok hc -> hc < t ->
     exists why, freeze c rdy = Panicked [] why).
Proof.
  pose proof (sysclk_bounds c) as Hs.
  unfold freeze, freeze_compute, bind, assert.
  replace (pllmul_of c * HSI / 2 <=? 72000000) with true
    by (symmetry; apply Z.leb_le; lia).
  split; [|split].
  - intros h Hc Hlt. unfold hpre_bits_of, map_unwrap_or, u32_div, bind.
    rewrite Hc. replace (h =? 0) with false by (symmetry; apply Z.eqb_neq; lia).
    rewrite Z.div_small by lia. reflexivity.
  - intros t hc Hc Ha Hlt. pose proof (ahb_clock_of_nonneg c hc Ha) as H0.
    unfold ahb_clock_of, bind in Ha.
    destruct (hpre_bits_of c _) as [hb|] eqn:Eh; [|discriminate].
    injection Ha as Ha. unfold ahb_divider in Ha. rewrite Ha.
    apply hpre_bits_of_range in Eh.
    pose proof (div_shiftl_le (pllmul_of c * HSI / 2) (hb - 7) ltac:(lia)
                  ltac:(lia)).
    replace (hc <=? 72000000) with true by (symmetry; apply Z.leb_le; lia).
    unfold ppre_bits_of, map_unwrap_or, u32_div, bind. rewrite Hc.
    replace (t =? 0) with false by (symmetry; apply Z.eqb_neq; lia).
    rewrite Z.div_small by lia. reflexivity.
  - intros t hc Hc Ha Hlt. pose proof (ahb_clock_of_nonneg c hc Ha) as H0.
    unfold ahb_clock_of, bind in Ha.
    destruct (hpre_bits_of c _) as [hb|] eqn:Eh; [|discriminate].
    injection Ha as Ha. unfold ahb_divider in Ha. rewrite Ha.
    apply hpre_bits_of_range in Eh.
    pose proof (div_shiftl_le (pllmul_of c * HSI / 2) (hb - 7) ltac:(lia)
                  ltac:(lia)).
    replace (hc <=? 72000000) with true by (symmetry; apply Z.leb_le; lia).
    destruct (ppre_bits_of (pclk1 c) hc) as [b1|w]; [|eexists; reflexivity].
    destruct (hc / Z.shiftl 1 (b1 - 3) <=? 36000000); [|eexists; reflexivity].
    unfold ppre_bits_of at 1, map_unwrap_or, u32_div, bind. rewrite Hc.
    replace (t =? 0) with false by (symmetry; apply Z.eqb_neq; lia).
    rewrite Z.div_small by lia. eexists; reflexivity.
Qed.

End RccClaims.

Module RccExtra.
Import Rcc RccFacts.

Lemma shiftl_1_cases (b : Z) :
  3 <= b <= 7 -> In (Z.shiftl 1 (b - 3)) [1; 2; 4; 8; 16].
Proof.
  intros H. assert (b = 3 \/ b = 4 \/ b = 5 \/ b = 6 \/ b = 7) as Hb by lia.
  destruct Hb as [-> | [-> | [-> | [-> | ->]]]]; simpl; tauto.
Qed.

(** X1: the clocks [freeze] reports. *)
Theorem freeze_returned_bounds (c : CFGR) (rdy : list bool) tr clk :
  freeze c rdy = Returned tr clk ->
  8000000 <= c_sysclk clk <= 64000000 /\ c_sysclk clk mod 4000000 = 0 /\
  0 < c_hclk clk <= c_sysclk clk /\
  c_pclk1 clk <= 36000000 /\ c_pclk1 clk <= c_hclk clk /\
  c_pclk2 clk <= c_hclk clk /\
  c_pclk1 clk = c_hclk clk / c_ppre1 clk /\
  c_pclk2 clk = c_hclk clk / c_ppre2 clk /\
  In (c_ppre1 clk) [1; 2; 4; 8; 16] /\ In (c_ppre2 clk) [1; 2; 4; 8; 16].
Proof.
  intros Hf. apply freeze_returned_inv in Hf as (p & Hc & ->).
  apply freeze_compute_inv in Hc.
  destruct Hc as (_ & _ & Hs & Hh & Hhc & H1 & Hp1 & Hc1 & Hl1 & H2 & Hp2 & Hc2).
  simpl. pose proof (sysclk_bounds c) as Hb.
  apply hpre_bits_of_range in Hh. apply ppre_bits_of_range in H1.
  apply ppre_bits_of_range in H2. unfold ahb_divider in Hhc.
  assert (Hd : 0 < Z.shiftl 1 (p_hpre_bits p - 7) <= 256).
  { rewrite Z.shiftl_1_l. split; [apply Z.pow_pos_nonneg; lia|].
    change 256 with (2 ^ 8). apply Z.pow_le_mono_r; lia. }
  pose proof (div_shiftl_le (p_sysclk p) (p_hpre_bits p - 7) ltac:(lia) ltac:(lia)).
  pose proof (div_shiftl_nonneg (p_sysclk p) (p_hpre_bits p - 7) ltac:(lia) ltac:(lia)).
  pose proof (div_shiftl_le (p_hclk p) (p_ppre1_bits p - 3) ltac:(lia) ltac:(lia)).
  pose proof (div_shiftl_le (p_hclk p) (p_ppre2_bits p - 3) ltac:(lia) ltac:(lia)).
  rewrite <- Hp1 in *. rewrite <- Hp2 in *. rewrite <- Hc1 in *. rewrite <- Hc2 in *.
  split; [lia|]. split.
  { rewrite Hs. unfold HSI. pose proof (pllmul_of_bounds c).
    replace (pllmul_of c * 8000000) with (pllmul_of c * 4000000 * 2) by ring.
    rewrite Z.div_mul by lia. apply Z.mod_mul. lia. }
  split; [split; [rewrite Hhc; apply Z.div_str_pos; lia|lia]|].
  repeat split; try lia; [rewrite Hp1 | rewrite Hp2]; apply shiftl_1_cases; lia.
Qed.

(** Witness for X1: [sysclk = 36 MHz], [pclk1 = 18 MHz]. *)
Lemma freeze_returned_bounds_witness :
  c_pclk1 (mkClocks 36000000 18000000 36000000 2 1 36000000) <= 36000000.
Proof.
  destruct (freeze_returned_bounds
              (set_pclk1 (set_sysclk cfgr_default 36000000) 18000000) [true]
              [ACR_write_latency 1; CFGR_write_pllmul 7; CR_write_pllon;
               CR_read_pllrdy true; CFGR_modify_pre_sw 3 4 7 2]
              (mkClocks 36000000 18000000 36000000 2 1 36000000)
              ltac:(vm_compute; reflexivity)) as (_ & _ & _ & H & _).
  exact H.
Defined.

(** X2: what [freeze] writes agrees with what it reports. *)
Theorem freeze_trace_matches_clocks (c : CFGR) (rdy : list bool) tr clk :
  freeze c rdy = Returned tr clk ->
  exists rest pre hp pp1 pp2 sw,
    tr = ACR_write_latency (latency (c_sysclk clk)) :: rest /\
    (tr = pre ++ [CFGR_modify_pre_sw pp2 pp1 hp sw] \/
     tr = pre ++ [CFGR_write_pre_sw pp2 pp1 hp sw]) /\
    c_hclk clk = c_sysclk clk / Z.shiftl 1 (hp - 7) /\
    Z.shiftl 1 (pp1 - 3) = c_ppre1 clk /\
    Z.shiftl 1 (pp2 - 3) = c_ppre2 clk /\
    (sw = 0 <-> c_sysclk clk = HSI) /\
    (sw = 0 \/ sw = 2) /\
    (forall b, In (CFGR_write_pllmul b) tr ->
       1 <= b <= 14 /\ c_sysclk clk = (b + 2) * 4000000).
Proof.
  unfold freeze. destruct (freeze_compute c) as [p|] eqn:Hc; [|discriminate].
  apply freeze_compute_inv in Hc.
  destruct Hc as (Hm & Hb & Hs & _ & Hhc & _ & Hp1 & _ & _ & _ & Hp2 & _).
  pose proof (pllmul_of_bounds c) as Hmb.
  assert (Hs4 : p_sysclk p = pllmul_of c * 4000000).
  { rewrite Hs. unfold HSI.
    replace (pllmul_of c * 8000000) with (pllmul_of c * 4000000 * 2) by ring.
    apply Z.div_mul; lia. }
  unfold freeze_commit. rewrite Hb. unfold pllmul_bits_of.
  destruct (Z.eqb_spec (pllmul_of c) 2) as [E2|E2].
  - intros H; inversion H; subst; clear H. simpl.
    exists [CFGR_write_pre_sw (p_ppre2_bits p) (p_ppre1_bits p) (p_hpre_bits p) 0].
    exists [ACR_write_latency (latency (p_sysclk p))].
    do 4 eexists. split; [reflexivity|]. split; [right; reflexivity|].
    unfold ahb_divider in Hhc. split; [exact Hhc|].
    split; [symmetry; exact Hp1|]. split; [symmetry; exact Hp2|].
    split; [split; [intros _; rewrite Hs4, E2; reflexivity|reflexivity]|].
    split; [left; reflexivity|].
    intros b [Hin|[Hin|[]]]; discriminate.
  - destruct (spin_pllrdy rdy) as [polls locked] eqn:Esp.
    destruct locked; [|discriminate].
    intros H; inversion H; subst; clear H. simpl.
    eexists. exists ([ACR_write_latency (latency (p_sysclk p))] ++
                     [CFGR_write_pllmul (pllmul_of c - 2); CR_write_pllon] ++ polls).
    do 4 eexists. split; [reflexivity|].
    split; [left; rewrite <- !app_assoc; reflexivity|].
    unfold ahb_divider in Hhc. split; [exact Hhc|].
    split; [symmetry; exact Hp1|]. split; [symmetry; exact Hp2|].
    split; [split; [discriminate|unfold HSI; lia]|].
    split; [right; reflexivity|].
    intros b Hin. simpl in Hin.
    destruct Hin as [Hin|[Hin|[Hin|Hin]]]; try discriminate.
    + injection Hin as <-. lia.
    + pose proof (spin_pllrdy_shape rdy) as [n Hn]. rewrite Esp in Hn.
      simpl in Hn. subst polls. rewrite !in_app_iff in Hin. simpl in Hin.
      repeat match goal with H : _ \/ _ |- _ => destruct H as [H|H] end;
        first [apply repeat_spec in Hin; discriminate | discriminate | contradiction].
Qed.

(** Witness for X2: [sysclk = 36 MHz] with the PLL locking at once. *)
Lemma freeze_trace_matches_clocks_witness :
  exists rest, [ACR_write_latency 1; CFGR_write_pllmul 7; CR_write_pllon;
                CR_read_pllrdy true; CFGR_modify_pre_sw 3 3 7 2]
               = ACR_write_latency (latency 36000000) :: rest.
Proof.
  destruct (freeze_trace_matches_clocks (set_sysclk cfgr_default 36000000)
              [true]
              [ACR_write_latency 1; CFGR_write_pllmul 7; CR_write_pllon;
               CR_read_pllrdy true; CFGR_modify_pre_sw 3 3 7 2]
              (mkClocks 36000000 36000000 36000000 1 1 36000000)
              ltac:(vm_compute; reflexivity))
    as (rest & _ & _ & _ & _ & _ & H & _).
  exists rest. exact H.
Defined.

Lemma hpre_bits_some (c : CFGR) (s h b : Z) :
  hclk c = Some h -> hpre_bits_of c s = Ok b ->
  h <> 0 /\ hpre_of_ratio (s / h) = Ok b.
Proof.
  intros Hh. unfold hpre_bits_of, map_unwrap_or, bind, u32_div. rewrite Hh.
  destruct (Z.eqb_spec h 0); [discriminate|]. auto.
Qed.

Lemma ppre_bits_some (t h b : Z) :
  ppre_bits_of (Some t) h = Ok b -> t <> 0 /\ ppre_of_ratio (h / t) = Ok b.
Proof.
  unfold ppre_bits_of, map_unwrap_or, bind, u32_div.
  destruct (Z.eqb_spec t 0); [discriminate|]. auto.
Qed.


Lemma ppre_bits_none (h b : Z) : ppre_bits_of None h = Ok b -> b = 3.
Proof. simpl. congruence. Qed.

Lemma ppre_bits_buckets (t h b : Z) :
  ppre_bits_of (Some t) h = Ok b ->
  let r := h / t in
  (r = 1 -> b = 3) /\ (r = 2 -> b = 4) /\ (3 <= r <= 5 -> b = 5) /\
  (6 <= r <= 11 -> b = 6) /\ (12 <= r -> b = 7).
Proof.
  intros H. apply ppre_bits_some in H as [_ H]. revert H. cbv zeta.
  unfold ppre_of_ratio.
  destruct (Z.eqb_spec (h / t) 0); [discriminate|].
  destruct (Z.eqb_spec (h / t) 1); [intros [= <-]; lia|].
  destruct (Z.eqb_spec (h / t) 2); [intros [= <-]; lia|].
  destruct (Z.leb_spec (h / t) 5); [intros [= <-]; lia|].
  destruct (Z.leb_spec (h / t) 11); intros [= <-]; lia.
Qed.


(** X3: how the reported system clock tracks a requested one [t]: requests
    below 12 MHz run on the 8 MHz HSI, requests from 8 MHz up to 68 MHz get
    the largest multiple of 4 MHz not above [t], and requests of 68 MHz and
    more are capped at 64 MHz. *)
Theorem freeze_sysclk_tracks_request (c : CFGR) (rdy : list bool) t tr clk :
  sysclk c = Some t -> 0 <= t < 2 ^ 31 ->
  freeze c rdy = Returned tr clk ->
  (t < 12000000 -> c_sysclk clk = 8000000) /\
  (8000000 <= t -> c_sysclk clk <= t) /\
  (t < 68000000 -> t - 4000000 < c_sysclk clk) /\
  (8000000 <= t < 68000000 -> c_sysclk clk = t / 4000000 * 4000000) /\
  (68000000 <= t -> c_sysclk clk = 64000000).
Proof.
  intros Ht Hr Hf. apply freeze_returned_inv in Hf as (p & Hc & ->).
  apply freeze_compute_inv in Hc as (_ & _ & Hs & _). simpl. rewrite Hs.
  unfold pllmul_of, unwrap_or, HSI. rewrite Ht.
  assert (Hw : u32_wrap (2 * t) = 2 * t)
    by (unfold u32_wrap; apply Z.mod_small; lia).
  rewrite Hw.
  replace (2 * t / 8000000) with (t / 4000000)
    by (change 8000000 with (2 * 4000000); rewrite Z.div_mul_cancel_l; lia).
  set (m := Z.min (Z.max (t / 4000000) 2) 16).
  replace (m * 8000000 / 2) with (m * 4000000)
    by (replace (m * 8000000) with (m * 4000000 * 2) by ring;
        rewrite Z.div_mul; lia).
  pose proof (Z.div_mod t 4000000 ltac:(lia)).
  pose proof (Z.mod_pos_bound t 4000000 ltac:(lia)).
  subst m. lia.
Qed.

(** Witness for X3: a 50 MHz request gives 48 MHz. *)
Lemma freeze_sysclk_tracks_request_witness :
  c_sysclk (mkClocks 48000000 24000000 48000000 2 1 48000000)
  = 50000000 / 4000000 * 4000000.
Proof.
  apply (freeze_sysclk_tracks_request
           (set_pclk1 (set_sysclk cfgr_default 50000000) 24000000) [true]
           50000000
           [ACR_write_latency 1; CFGR_write_pllmul 10; CR_write_pllon;
            CR_read_pllrdy true; CFGR_modify_pre_sw 3 4 7 2]
           (mkClocks 48000000 24000000 48000000 2 1 48000000));
    [reflexivity | lia | vm_compute; reflexivity | lia].
Defined.

(** X4: a target of 0 Hz for the AHB, APB1 or APB2 clock makes [freeze]
    abort before any register write; for the AHB target (and for the APB1
    target, when the AHB step succeeds) the abort is the division by zero. *)
Theorem freeze_zero_target_aborts (c : CFGR) (rdy : list bool) :
  (hclk c = Some 0 \/ pclk1 c = Some 0 \/ pclk2 c = Some 0 ->
   exists why, freeze c rdy = Panicked [] why) /\
  (hclk c = Some 0 -> freeze c rdy = Panicked [] DivByZero) /\
  (forall hc, pclk1 c = Some 0 -> ahb_clock_of c = Ok hc ->
   freeze c rdy = Panicked [] DivByZero).
Proof.
  pose proof (sysclk_bounds c) as Hs.
  split; [|split].
  - intros Hz. unfold freeze.
    destruct (freeze_compute c) as [p|why] eqn:Hc; [|eauto].
    apply freeze_compute_inv in Hc.
    destruct Hc as (_ & _ & _ & Hh & _ & H1 & _ & _ & _ & H2 & _).
    exfalso. destruct Hz as [Hz|[Hz|Hz]].
    + apply (hpre_bits_some _ _ _ _ Hz) in Hh as [Hh _]. lia.
    + rewrite Hz in H1. apply ppre_bits_some in H1 as [H1 _]. lia.
    + rewrite Hz in H2. apply ppre_bits_some in H2 as [H2 _]. lia.
  - intros Hz. unfold freeze, freeze_compute, bind, assert.
    replace (pllmul_of c * HSI / 2 <=? 72000000) with true
      by (symmetry; apply Z.leb_le; lia).
    unfold hpre_bits_of at 1. rewrite Hz. reflexivity.
  - intros hc Hz Ha. unfold ahb_clock_of, bind in Ha.
    destruct (hpre_bits_of c (pllmul_of c * HSI / 2)) as [b|w] eqn:Hb;
      [|discriminate].
    pose proof (hpre_bits_of_range _ _ _ Hb) as Hbr.
    pose proof (div_shiftl_le (pllmul_of c * HSI / 2) (b - 7)
                  ltac:(lia) ltac:(lia)).
    unfold freeze, freeze_compute, bind, assert.
    replace (pllmul_of c * HSI / 2 <=? 72000000) with true
      by (symmetry; apply Z.leb_le; lia).
    rewrite Hb.
    replace (pllmul_of c * HSI / 2 / Z.shiftl 1 (b - 7) <=? 72000000)
      with true by (symmetry; apply Z.leb_le; lia).
    unfold ppre_bits_of at 1. rewrite Hz. reflexivity.
Qed.



(** X6: the APB1 and APB2 prescalers [freeze] reports: 1 without a target,
    otherwise by the ratio [r] of the AHB clock to the target: 1 for [r = 1],
    2 for [r = 2], 4 for [r] in 3..5, 8 for [r] in 6..11, 16 above. *)
Theorem freeze_apb_prescalers (c : CFGR) (rdy : list bool) tr clk :
  freeze c rdy = Returned tr clk ->
  (pclk1 c = None -> c_ppre1 clk = 1) /\
  (pclk2 c = None -> c_ppre2 clk = 1) /\
  (forall t, pclk1 c = Some t ->
     let r := c_hclk clk / t in
     (r = 1 -> c_ppre1 clk = 1) /\ (r = 2 -> c_ppre1 clk = 2) /\
     (3 <= r <= 5 -> c_ppre1 clk = 4) /\ (6 <= r <= 11 -> c_ppre1 clk = 8) /\
     (12 <= r -> c_ppre1 clk = 16)) /\
  (forall t, pclk2 c = Some t ->
     let r := c_hclk clk / t in
     (r = 1 -> c_ppre2 clk = 1) /\ (r = 2 -> c_ppre2 clk = 2) /\
     (3 <= r <= 5 -> c_ppre2 clk = 4) /\ (6 <= r <= 11 -> c_ppre2 clk = 8) /\
     (12 <= r -> c_ppre2 clk = 16)).
Proof.
  intros Hf. apply freeze_returned_inv in Hf as (p & Hc & ->).
  apply freeze_compute_inv in Hc.
  destruct Hc as (_ & _ & _ & _ & _ & H1 & Hp1 & _ & _ & H2 & Hp2 & _).
  simpl. rewrite Hp1, Hp2.
  split; [intros Hn; rewrite Hn in H1; apply ppre_bits_none in H1;
          rewrite H1; reflexivity|].
  split; [intros Hn; rewrite Hn in H2; apply ppre_bits_none in H2;
          rewrite H2; reflexivity|].
  split; intros t Ht; cbv zeta.
  - rewrite Ht in H1. apply ppre_bits_buckets in H1. cbv zeta in H1.
    destruct H1 as (B1 & B2 & B3 & B4 & B5).
    repeat split; intros; [rewrite B1 | rewrite B2 | rewrite B3
                            | rewrite B4 | rewrite B5]; auto.
  - rewrite Ht in H2. apply ppre_bits_buckets in H2. cbv zeta in H2.
    destruct H2 as (B1 & B2 & B3 & B4 & B5).
    repeat split; intros; [rewrite B1 | rewrite B2 | rewrite B3
                            | rewrite B4 | rewrite B5]; auto.
Qed.

(** Witness for X6: a 36 MHz AHB clock with a 9 MHz APB1 target. *)
Lemma freeze_apb_prescalers_witness :
  c_ppre1 (mkClocks 36000000 9000000 36000000 4 1 36000000) = 4.
Proof.
  destruct (freeze_apb_prescalers
              (set_pclk1 (set_sysclk cfgr_default 36000000) 9000000) [true]
              [ACR_write_latency 1; CFGR_write_pllmul 7; CR_write_pllon;
               CR_read_pllrdy true; CFGR_modify_pre_sw 3 5 7 2]
              (mkClocks 36000000 9000000 36000000 4 1 36000000)
              ltac:(vm_compute; reflexivity)) as (_ & _ & H1 & _).
  destruct (H1 9000000 eq_refl) as (_ & _ & H3 & _).
  apply H3. vm_compute. split; discriminate.
Defined.



End RccExtra.

(* ================================================================== *)
(** * Properties of the GPIO pin code *)

Module GpioFacts.
Import Gpio.

Lemma testbit_ones (w d : Z) :
  0 <= w -> Z.testbit (Z.ones w) d = (0 <=? d) && (d <? w).
Proof.
  intros Hw. destruct (Z.leb_spec 0 d).
  - destruct (Z.ltb_spec d w).
    + apply Z.ones_spec_low; lia.
    + apply Z.ones_spec_high; lia.
  - apply Z.testbit_neg_r; lia.
Qed.

Lemma testbit_small (a w d : Z) :
  0 <= w -> 0 <= a < 2 ^ w -> d < 0 \/ w <= d -> Z.testbit a d = false.
Proof.
  intros Hw Ha [Hd|Hd]; [apply Z.testbit_neg_r; lia|].
  rewrite <- (Z.mod_small a (2 ^ w)) by lia.
  apply Z.mod_pow2_bits_high; lia.
Qed.

(** Bit [q] of [(v & !(mask << off)) | (a << off)] on a u32. *)
Lemma rmw_bit (v mask a off q : Z) :
  0 <= q < 32 ->
  Z.testbit (Z.lor (Z.land v (u32_not (Z.shiftl mask off))) (Z.shiftl a off)) q
  = (Z.testbit v q && negb (Z.testbit mask (q - off))) || Z.testbit a (q - off).
Proof.
  intros Hq. rewrite Z.lor_spec, Z.land_spec. unfold u32_not.
  rewrite Z.lxor_spec, !Z.shiftl_spec by lia.
  rewrite (Z.ones_spec_low 32 q) by lia.
  destruct (Z.testbit mask (q - off)); reflexivity.
Qed.

Lemma rmw_bit_other (v w a off k : Z) :
  0 <= w -> 0 <= a < 2 ^ w -> 0 <= k < 32 -> k < off \/ off + w <= k ->
  Z.testbit (Z.lor (Z.land v (u32_not (Z.shiftl (Z.ones w) off)))
                   (Z.shiftl a off)) k
  = Z.testbit v k.
Proof.
  intros Hw Ha Hk Hout. rewrite rmw_bit by lia.
  rewrite testbit_ones by lia.
  rewrite (testbit_small a w) by lia.
  destruct (Z.leb_spec 0 (k - off)); destruct (Z.ltb_spec (k - off) w);
    try lia; simpl; rewrite ?andb_true_r, ?orb_false_r; reflexivity.
Qed.

Lemma field_bit (v off w n : Z) :
  0 <= n -> 0 <= w ->
  Z.testbit (Z.land (Z.shiftr v off) (Z.ones w)) n
  = (n <? w) && Z.testbit v (n + off).
Proof.
  intros Hn Hw. rewrite Z.land_spec, Z.shiftr_spec, testbit_ones by lia.
  rewrite (proj2 (Z.leb_le 0 n)) by lia. apply andb_comm.
Qed.

Lemma field_rmw_same (v w a off : Z) :
  0 <= w -> 0 <= off -> off + w <= 32 -> 0 <= a < 2 ^ w ->
  Z.land (Z.shiftr (Z.lor (Z.land v (u32_not (Z.shiftl (Z.ones w) off)))
                          (Z.shiftl a off)) off) (Z.ones w) = a.
Proof.
  intros Hw Ho Hb Ha. apply Z.bits_inj'. intros n Hn.
  rewrite field_bit by lia. destruct (Z.ltb_spec n w).
  - rewrite rmw_bit by lia. replace (n + off - off) with n by lia.
    rewrite testbit_ones by lia.
    rewrite (proj2 (Z.leb_le 0 n)), (proj2 (Z.ltb_lt n w)) by lia.
    simpl. rewrite andb_false_r. reflexivity.
  - symmetry. apply (testbit_small a w); lia.
Qed.

Lemma field_rmw_other (v w a off off' w' : Z) :
  0 <= w -> 0 <= w' -> 0 <= off' -> off' + w' <= 32 ->
  off' + w' <= off \/ off + w <= off' -> 0 <= a < 2 ^ w ->
  Z.land (Z.shiftr (Z.lor (Z.land v (u32_not (Z.shiftl (Z.ones w) off)))
                          (Z.shiftl a off)) off') (Z.ones w')
  = Z.land (Z.shiftr v off') (Z.ones w').
Proof.
  intros Hw Hw' Ho' Hb Hdis Ha. apply Z.bits_inj'. intros n Hn.
  rewrite !field_bit by lia. destruct (Z.ltb_spec n w'); simpl; [|reflexivity].
  apply rmw_bit_other; lia.
Qed.

(** Clearing a field is writing zero into it. *)
Lemma clear_as_rmw (v m off : Z) :
  Z.land v (u32_not (Z.shiftl m off))
  = Z.lor (Z.land v (u32_not (Z.shiftl m off))) (Z.shiftl 0 off).
Proof. rewrite Z.shiftl_0_l, Z.lor_0_r. reflexivity. Qed.

Lemma banks_pin_ok (bank : list pin) (p : pin) :
  In bank banks -> In p bank ->
  0 <= pin_i p < 16 /\ pin_afr p = (if pin_i p <? 8 then AFRL else AFRH).
Proof.
  intros Hb Hp.
  assert (Hall : forallb (forallb pin_ok) banks = true) by reflexivity.
  rewrite forallb_forall in Hall. specialize (Hall bank Hb).
  rewrite forallb_forall in Hall. specialize (Hall p Hp).
  unfold pin_ok in Hall. apply andb_prop in Hall as [H1 H2].
  apply andb_prop in H1 as [H0 H1].
  apply Z.leb_le in H0. apply Z.ltb_lt in H1. split; [lia|].
  destruct (pin_afr p), (pin_i p <? 8); simpl in H2;
    reflexivity || discriminate.
Qed.

Lemma moder_push_pull_field (p : pin) (r : gpio_regs) (j : Z) :
  0 <= pin_i p < 16 -> 0 <= j < 16 ->
  mode_field (moder (as_push_pull_output p r)) j
  = if j =? pin_i p then 1 else mode_field (moder r) j.
Proof.
  intros Hi Hj. unfold as_push_pull_output, moder_set_mode, mode_field.
  cbn [moder set_otyper set_moder]. change 3 with (Z.ones 2).
  destruct (Z.eqb_spec j (pin_i p)) as [->|Hne].
  - apply field_rmw_same; lia.
  - apply field_rmw_other; lia.
Qed.

Lemma moder_floating_input_field (p : pin) (r : gpio_regs) (j : Z) :
  0 <= pin_i p < 16 -> 0 <= j < 16 ->
  mode_field (moder (as_floating_input p r)) j
  = if j =? pin_i p then 0 else mode_field (moder r) j.
Proof.
  intros Hi Hj. unfold as_floating_input, mode_field.
  cbn [moder set_pupdr set_moder]. rewrite clear_as_rmw.
  change 3 with (Z.ones 2).
  destruct (Z.eqb_spec j (pin_i p)) as [->|Hne].
  - apply field_rmw_same; lia.
  - apply field_rmw_other; lia.
Qed.

End GpioFacts.

Module GpioClaims.
Import Gpio GpioFacts.

(** C8: for every pin of every bank, [as_push_pull_output] followed by
    [as_floating_input] puts the pin's 2-bit MODER field to 01 and then
    back to 00 (its value in the floating-input state), and leaves the
    MODER fields of all the other pins unchanged at both steps. *)
Theorem C8_push_pull_round_trip (bank : list pin) (p : pin) (r : gpio_regs) :
  In bank banks -> In p bank ->
  let r1 := as_push_pull_output p r in
  let r2 := as_floating_input p r1 in
  mode_field (moder r1) (pin_i p) = 1 /\
  mode_field (moder r2) (pin_i p) = 0 /\
  (mode_field (moder r) (pin_i p) = 0 ->
     mode_field (moder r2) (pin_i p) = mode_field (moder r) (pin_i p)) /\
  (forall j, 0 <= j < 16 -> j <> pin_i p ->
     mode_field (moder r1) j = mode_field (moder r) j /\
     mode_field (moder r2) j = mode_field (moder r) j).
Proof.
  intros Hb Hp. destruct (banks_pin_ok bank p Hb Hp) as [Hi _]. cbv zeta.
  rewrite moder_floating_input_field, !moder_push_pull_field by lia.
  rewrite !Z.eqb_refl. split; [reflexivity|split; [reflexivity|split]].
  - intros H. rewrite H. reflexivity.
  - intros j Hj Hne.
    rewrite moder_floating_input_field, moder_push_pull_field by lia.
    apply Z.eqb_neq in Hne. rewrite Hne. split; reflexivity.
Qed.

(** Witness for C8: pin PA5 with every MODER bit set. *)
Lemma C8_push_pull_round_trip_witness :
  mode_field (moder (as_floating_input (row 5)
                       (as_push_pull_output (row 5)
                          (mkRegs (Z.ones 32) 0 0 0 0 0 [])))) 5 = 0.
Proof.
  destruct (C8_push_pull_round_trip GPIOA (row 5)
              (mkRegs (Z.ones 32) 0 0 0 0 0 [])
              ltac:(simpl; auto) ltac:(simpl; tauto)) as (_ & H & _).
  exact H.
Defined.

(** C9: on a pin of index 10 (in every bank its nibble is in AFRH),
    [as_af7] writes 0b10 into MODER bits [21:20] and 0b0111 into AFRH bits
    [11:8], keeps every other bit of both registers, and touches no other
    register. *)
Theorem C9_as_af7_pin10 (bank : list pin) (p : pin) (r : gpio_regs) :
  In bank banks -> In p bank -> pin_i p = 10 ->
  let r' := as_af7 p r in
  pin_afr p = AFRH /\
  Z.land (Z.shiftr (moder r') 20) 3 = 2 /\
  Z.land (Z.shiftr (afrh r') 8) 15 = 7 /\
  (forall k, 0 <= k < 32 -> ~ (20 <= k <= 21) ->
     Z.testbit (moder r') k = Z.testbit (moder r) k) /\
  (forall k, 0 <= k < 32 -> ~ (8 <= k <= 11) ->
     Z.testbit (afrh r') k = Z.testbit (afrh r) k) /\
  afrl r' = afrl r /\ otyper r' = otyper r /\ pupdr r' = pupdr r /\
  odr r' = odr r /\ bsrr_log r' = bsrr_log r.
Proof.
  intros Hb Hp Hi. destruct (banks_pin_ok bank p Hb Hp) as [_ Ha].
  rewrite Hi in Ha. simpl in Ha. cbv zeta.
  unfold as_af7, as_af, moder_set_mode, write_afr, read_afr.
  rewrite Ha, Hi.
  cbn [moder afrh afrl otyper pupdr odr bsrr_log set_moder set_afrh].
  change (2 * 10) with 20. change (4 * (10 mod 8)) with 8.
  change 3 with (Z.ones 2). change 15 with (Z.ones 4).
  split; [reflexivity|]. split; [|split; [|split; [|split]]].
  - apply field_rmw_same; lia.
  - apply field_rmw_same; lia.
  - intros k Hk Hn. apply rmw_bit_other; lia.
  - intros k Hk Hn. apply rmw_bit_other; lia.
  - repeat split.
Qed.

(** Witness for C9: pin PB10 on registers that are all zero. *)
Lemma C9_as_af7_pin10_witness :
  afrh (as_af7 (row 10) (mkRegs 0 0 0 0 0 0 [])) = 1792 /\
  Z.land (Z.shiftr (afrh (as_af7 (row 10) (mkRegs 0 0 0 0 0 0 []))) 8) 15
  = 7.
Proof.
  destruct (C9_as_af7_pin10 GPIOB (row 10) (mkRegs 0 0 0 0 0 0 [])
              ltac:(simpl; auto) ltac:(simpl; tauto) eq_refl)
    as (_ & _ & H & _).
  split; [vm_compute; reflexivity|exact H].
Defined.

(** C10: erasing the index with [downgrade] preserves the [OutputPin]
    behaviour: the erased pin's four operations, using its stored index,
    are those of the typed pin, namely reading ODR masked with bit [i]
    ([is_high] being the negation of [is_low]), writing [1 << i] to BSRR
    to set and [1 << (16 + i)] to reset. *)
Theorem C10_downgrade_refines (p : PXi) (r : gpio_regs) :
  is_low (downgrade p) r = is_low p r /\
  is_high (downgrade p) r = is_high p r /\
  set_high (downgrade p) r = set_high p r /\
  set_low (downgrade p) r = set_low p r /\
  is_low p r = (Z.land (odr r) (Z.shiftl 1 (pin_i (pxi_pin p))) =? 0) /\
  is_high p r = negb (is_low p r) /\
  set_high p r = write_bsrr r (Z.shiftl 1 (pin_i (pxi_pin p))) /\
  set_low p r = write_bsrr r (Z.shiftl 1 (16 + pin_i (pxi_pin p))).
Proof. repeat split. Qed.

End GpioClaims.

(* ================================================================== *)
(** * Further properties of the GPIO code *)

Module GpioExtra.
Import Gpio GpioFacts.

Lemma local_ext (f g : Z -> Z) (o w : Z) :
  (forall v, f v = g v) -> field_local g o w -> field_local f o w.
Proof.
  intros E [H|(Ho & Hw & Hb & c & k & K & H)].
  - left. intros v. rewrite E. apply H.
  - right. repeat split; auto. exists c, k. split; [exact K|].
    intros v q Hq. rewrite E. apply H; exact Hq.
Qed.

Lemma id_local (o w : Z) : field_local (fun v => v) o w.
Proof. left. reflexivity. Qed.

Lemma rmw_local (w a o : Z) :
  0 <= o -> 0 <= w -> o + w <= 32 -> 0 <= a < 2 ^ w ->
  field_local
    (fun v => Z.lor (Z.land v (u32_not (Z.shiftl (Z.ones w) o))) (Z.shiftl a o))
    o w.
Proof.
  intros Ho Hw Hb Ha. right. repeat split; try lia.
  exists (fun q => Z.testbit a (q - o)), (fun q => q <? 32).
  split; [intros q Hq; apply Z.ltb_lt; lia|].
  intros v q Hq. rewrite Z.lor_spec, Z.land_spec. unfold u32_not.
  rewrite Z.lxor_spec, !Z.shiftl_spec by lia. rewrite !testbit_ones by lia.
  destruct (Z.leb_spec o q), (Z.ltb_spec q (o + w)); simpl;
    try rewrite (testbit_small a w (q - o)) by lia;
    destruct (Z.leb_spec 0 (q - o)), (Z.ltb_spec (q - o) w),
             (Z.leb_spec 0 q), (Z.ltb_spec q 32); try lia; simpl;
    destruct (Z.testbit v q), (Z.testbit a (q - o)); reflexivity.
Qed.

Lemma clear_local (w o : Z) :
  0 <= o -> 0 <= w -> o + w <= 32 ->
  field_local (fun v => Z.land v (u32_not (Z.shiftl (Z.ones w) o))) o w.
Proof.
  intros Ho Hw Hb. eapply local_ext; [intros v; apply clear_as_rmw|].
  apply rmw_local; lia.
Qed.

Lemma setbit_local (o : Z) :
  0 <= o < 32 -> field_local (fun v => Z.lor v (Z.shiftl 1 o)) o 1.
Proof.
  intros Ho. right. repeat split; try lia.
  exists (fun _ => true), (fun _ => true). split; [reflexivity|].
  intros v q Hq. rewrite Z.lor_spec, Z.shiftl_spec by lia.
  destruct (Z.leb_spec o q), (Z.ltb_spec q (o + 1)); simpl.
  - replace (q - o) with 0 by lia. apply orb_true_r.
  - rewrite (testbit_small 1 1 (q - o)) by lia. now rewrite orb_false_r, andb_true_r.
  - rewrite (testbit_small 1 1 (q - o)) by lia. now rewrite orb_false_r, andb_true_r.
  - rewrite (testbit_small 1 1 (q - o)) by lia. now rewrite orb_false_r, andb_true_r.
Qed.

Ltac rw_local H1 H2 :=
  repeat ((rewrite H1 by lia) || (rewrite H2 by lia)).

Lemma local_commute (f1 f2 : Z -> Z) (o1 w1 o2 w2 : Z) :
  field_local f1 o1 w1 -> field_local f2 o2 w2 ->
  o1 + w1 <= o2 \/ o2 + w2 <= o1 ->
  forall v, f1 (f2 v) = f2 (f1 v).
Proof.
  intros [I1|(A1 & B1 & C1 & c1 & k1 & K1 & H1)]
         [I2|(A2 & B2 & C2 & c2 & k2 & K2 & H2)] Hd v;
    try (rewrite ?I1, ?I2; reflexivity).
  apply Z.bits_inj'. intros q Hq. rw_local H1 H2.
  destruct (Z.leb_spec o1 q), (Z.ltb_spec q (o1 + w1)),
           (Z.leb_spec o2 q), (Z.ltb_spec q (o2 + w2)); try lia; simpl;
    rewrite ?K1, ?K2 by lia;
    destruct (Z.testbit v q), (k1 q), (k2 q), (c1 q), (c2 q); reflexivity.
Qed.

Lemma local_idem (f : Z -> Z) (o w : Z) :
  field_local f o w -> forall v, f (f v) = f v.
Proof.
  intros [I|(A & B & C & c & k & K & H)] v; [rewrite !I; reflexivity|].
  apply Z.bits_inj'. intros q Hq. rewrite !H by lia.
  destruct ((o <=? q) && (q <? o + w)); [reflexivity|].
  destruct (Z.testbit v q), (k q); reflexivity.
Qed.

Lemma local_frame (f : Z -> Z) (o w q : Z) :
  field_local f o w -> 0 <= q < 32 -> q < o \/ o + w <= q ->
  forall v, Z.testbit (f v) q = Z.testbit v q.
Proof.
  intros [I|(A & B & C & c & k & K & H)] Hq Hout v; [rewrite I; reflexivity|].
  rewrite H by lia. rewrite K by lia.
  destruct (Z.leb_spec o q), (Z.ltb_spec q (o + w)); try lia; simpl;
    apply andb_true_r.
Qed.

Lemma local_field_frame (f : Z -> Z) (o w o' w' v : Z) :
  field_local f o w -> 0 <= o' -> 0 <= w' -> o' + w' <= 32 ->
  o' + w' <= o \/ o + w <= o' ->
  Z.land (Z.shiftr (f v) o') (Z.ones w') = Z.land (Z.shiftr v o') (Z.ones w').
Proof.
  intros L Ho Hw Hb Hd. apply Z.bits_inj'. intros n Hn.
  rewrite !field_bit by lia. destruct (Z.ltb_spec n w'); simpl; [|reflexivity].
  apply (local_frame f o w); [exact L|lia|lia].
Qed.

Ltac local_tac :=
  first [ apply id_local
        | apply (clear_local 2); lia
        | apply (clear_local 1); lia
        | apply (rmw_local 2); lia
        | apply setbit_local; lia ].

Lemma mod8_lo (x : Z) : 0 <= x < 8 -> x mod 8 = x.
Proof. intros H. apply Z.mod_small. exact H. Qed.

Lemma mod8_hi (x : Z) : 8 <= x < 16 -> x mod 8 = x - 8.
Proof.
  intros H. replace (x mod 8) with ((x - 8 + 1 * 8) mod 8) by (f_equal; ring).
  rewrite Z.mod_add by lia. apply Z.mod_small. lia.
Qed.

Lemma af_shape (n : Z) (p : pin) :
  0 <= n < 16 -> 0 <= pin_i p < 16 ->
  pin_afr p = (if pin_i p <? 8 then AFRL else AFRH) ->
  exists fm fo fp fl fh : Z -> Z,
    (forall r, as_af n p r
               = mkRegs (fm (moder r)) (fo (otyper r)) (fp (pupdr r))
                        (fl (afrl r)) (fh (afrh r)) (odr r) (bsrr_log r)) /\
    field_local fm (2 * pin_i p) 2 /\ field_local fo (pin_i p) 1 /\
    field_local fp (2 * pin_i p) 2 /\ field_local fl (4 * pin_i p) 4 /\
    field_local fh (4 * (pin_i p - 8)) 4.
Proof.
  intros Hn Hi. destruct (Z.ltb_spec (pin_i p) 8) as [Hlt|Hge]; intros Ha.
  - exists (fun v => Z.lor (Z.land v (u32_not (Z.shiftl 3 (2 * pin_i p))))
                           (Z.shiftl 2 (2 * pin_i p))),
           (fun v => v), (fun v => v),
           (fun v => Z.lor (Z.land v (u32_not (Z.shiftl 15 (4 * (pin_i p mod 8)))))
                           (Z.shiftl n (4 * (pin_i p mod 8)))),
           (fun v => v).
    split; [intros r; unfold as_af, moder_set_mode; rewrite Ha; reflexivity|].
    repeat split; try local_tac.
    rewrite mod8_lo by lia. apply (rmw_local 4); lia.
  - exists (fun v => Z.lor (Z.land v (u32_not (Z.shiftl 3 (2 * pin_i p))))
                           (Z.shiftl 2 (2 * pin_i p))),
           (fun v => v), (fun v => v), (fun v => v),
           (fun v => Z.lor (Z.land v (u32_not (Z.shiftl 15 (4 * (pin_i p mod 8)))))
                           (Z.shiftl n (4 * (pin_i p mod 8)))).
    split; [intros r; unfold as_af, moder_set_mode; rewrite Ha; reflexivity|].
    repeat split; try local_tac.
    rewrite mod8_hi by lia. apply (rmw_local 4); lia.
Qed.

(** Each transition is a bit-local update of the five configuration
    registers of the pin's bank, confined to the pin's own fields. *)
Lemma into_mode_shape (m : mode) (p : pin) :
  0 <= pin_i p < 16 -> pin_afr p = (if pin_i p <? 8 then AFRL else AFRH) ->
  exists fm fo fp fl fh : Z -> Z,
    (forall r, into_mode m p r
               = mkRegs (fm (moder r)) (fo (otyper r)) (fp (pupdr r))
                        (fl (afrl r)) (fh (afrh r)) (odr r) (bsrr_log r)) /\
    field_local fm (2 * pin_i p) 2 /\ field_local fo (pin_i p) 1 /\
    field_local fp (2 * pin_i p) 2 /\ field_local fl (4 * pin_i p) 4 /\
    field_local fh (4 * (pin_i p - 8)) 4.
Proof.
  intros Hi Ha. destruct m; simpl into_mode;
    try (apply af_shape; [lia | exact Hi | exact Ha]).
  - exists (fun v => Z.land v (u32_not (Z.shiftl 3 (2 * pin_i p)))),
           (fun v => v),
           (fun v => Z.land v (u32_not (Z.shiftl 3 (2 * pin_i p)))),
           (fun v => v), (fun v => v).
    split; [reflexivity|]. repeat split; local_tac.
  - exists (fun v => Z.land v (u32_not (Z.shiftl 3 (2 * pin_i p)))),
           (fun v => v),
           (fun v => Z.lor (Z.land v (u32_not (Z.shiftl 3 (2 * pin_i p))))
                           (Z.shiftl 2 (2 * pin_i p))),
           (fun v => v), (fun v => v).
    split; [reflexivity|]. repeat split; local_tac.
  - exists (fun v => Z.land v (u32_not (Z.shiftl 3 (2 * pin_i p)))),
           (fun v => v),
           (fun v => Z.lor (Z.land v (u32_not (Z.shiftl 3 (2 * pin_i p))))
                           (Z.shiftl 1 (2 * pin_i p))),
           (fun v => v), (fun v => v).
    split; [reflexivity|]. repeat split; local_tac.
  - exists (fun v => Z.lor (Z.land v (u32_not (Z.shiftl 3 (2 * pin_i p))))
                           (Z.shiftl 1 (2 * pin_i p))),
           (fun v => Z.lor v (Z.shiftl 1 (pin_i p))),
           (fun v => v), (fun v => v), (fun v => v).
    split; [reflexivity|]. repeat split; local_tac.
  - exists (fun v => Z.lor (Z.land v (u32_not (Z.shiftl 3 (2 * pin_i p))))
                           (Z.shiftl 1 (2 * pin_i p))),
           (fun v => Z.land v (u32_not (Z.shiftl 1 (pin_i p)))),
           (fun v => v), (fun v => v), (fun v => v).
    split; [reflexivity|]. repeat split; local_tac.
Qed.

Lemma setbit_same (v k : Z) :
  0 <= k -> Z.testbit (Z.lor v (Z.shiftl 1 k)) k = true.
Proof.
  intros Hk. rewrite Z.lor_spec, Z.shiftl_spec, Z.sub_diag by lia.
  apply orb_true_r.
Qed.

Lemma clearbit_same (v k : Z) :
  0 <= k < 32 -> Z.testbit (Z.land v (u32_not (Z.shiftl 1 k))) k = false.
Proof.
  intros Hk. rewrite Z.land_spec. unfold u32_not.
  rewrite Z.lxor_spec, Z.shiftl_spec, Z.sub_diag, testbit_ones by lia.
  rewrite (proj2 (Z.leb_le 0 k)), (proj2 (Z.ltb_lt k 32)) by lia.
  apply andb_false_r.
Qed.

(** X8: moving pin [p] of a [gpio!] table to any mode leaves the mode,
    pull, output-type and alternate-function fields of every other pin
    of the bank unchanged, and never touches ODR or BSRR. *)
Theorem into_mode_frame (m : mode) (bank : list pin) (p : pin)
    (r : gpio_regs) (j : Z) :
  In bank banks -> In p bank -> 0 <= j < 16 -> j <> pin_i p ->
  mode_field (moder (into_mode m p r)) j = mode_field (moder r) j /\
  pupd_field (pupdr (into_mode m p r)) j = pupd_field (pupdr r) j /\
  otype_bit (otyper (into_mode m p r)) j = otype_bit (otyper r) j /\
  af_nibble (into_mode m p r) (if j <? 8 then AFRL else AFRH) j
    = af_nibble r (if j <? 8 then AFRL else AFRH) j /\
  odr (into_mode m p r) = odr r /\
  bsrr_log (into_mode m p r) = bsrr_log r.
Proof.
  intros Hb Hp Hj Hne. destruct (banks_pin_ok bank p Hb Hp) as [Hi Ha].
  destruct (into_mode_shape m p Hi Ha)
    as (fm & fo & fp & fl & fh & E & Lm & Lo & Lp & Ll & Lh).
  rewrite E. cbn [moder otyper pupdr afrl afrh odr bsrr_log].
  unfold mode_field, pupd_field, otype_bit, af_nibble.
  change 3 with (Z.ones 2). change 15 with (Z.ones 4).
  split; [apply (local_field_frame fm (2 * pin_i p) 2); [exact Lm | lia ..]|].
  split; [apply (local_field_frame fp (2 * pin_i p) 2); [exact Lp | lia ..]|].
  split; [apply (local_frame fo (pin_i p) 1); [exact Lo | lia ..]|].
  split; [|split; reflexivity].
  destruct (Z.ltb_spec j 8); cbn [read_afr afrl afrh].
  - rewrite mod8_lo by lia.
    apply (local_field_frame fl (4 * pin_i p) 4); [exact Ll | lia ..].
  - rewrite mod8_hi by lia.
    apply (local_field_frame fh (4 * (pin_i p - 8)) 4); [exact Lh | lia ..].
Qed.

(** Witness for X8: PA9 to AF7 keeps the mode of PA3. *)
Lemma into_mode_frame_witness :
  mode_field (moder (into_mode AltFn7 (row 9)
                       (mkRegs 4294967295 0 1431655765 0 0 0 []))) 3
  = mode_field (moder (mkRegs 4294967295 0 1431655765 0 0 0 [])) 3.
Proof.
  destruct (into_mode_frame AltFn7 GPIOA (row 9)
              (mkRegs 4294967295 0 1431655765 0 0 0 []) 3
              ltac:(unfold banks; apply in_eq)
              ltac:(unfold GPIOA; apply in_map; simpl; lia)
              ltac:(lia) ltac:(simpl; lia)) as [H _].
  exact H.
Defined.

(** X9: transitions of two different pins of the same bank commute. *)
Theorem into_mode_commute (m1 m2 : mode) (bank : list pin) (p q : pin)
    (r : gpio_regs) :
  In bank banks -> In p bank -> In q bank -> pin_i p <> pin_i q ->
  into_mode m1 p (into_mode m2 q r) = into_mode m2 q (into_mode m1 p r).
Proof.
  intros Hb Hp Hq Hne.
  destruct (banks_pin_ok bank p Hb Hp) as [Hi Ha].
  destruct (banks_pin_ok bank q Hb Hq) as [Hi' Ha'].
  destruct (into_mode_shape m1 p Hi Ha)
    as (fm & fo & fp & fl & fh & E & Lm & Lo & Lp & Ll & Lh).
  destruct (into_mode_shape m2 q Hi' Ha')
    as (gm & go & gp & gl & gh & E' & Lm' & Lo' & Lp' & Ll' & Lh').
  rewrite !E, !E'. cbn [moder otyper pupdr afrl afrh odr bsrr_log].
  f_equal; eapply local_commute; eauto; lia.
Qed.

(** Witness for X9: PB5 to push-pull output and PB12 to AF5, either
    order. *)
Lemma into_mode_commute_witness :
  into_mode PushPullOutput (row 5)
    (into_mode AltFn5 (row 12) (mkRegs 2863311530 255 0 0 0 0 []))
  = into_mode AltFn5 (row 12)
      (into_mode PushPullOutput (row 5) (mkRegs 2863311530 255 0 0 0 0 [])).
Proof.
  apply (into_mode_commute PushPullOutput AltFn5 GPIOB (row 5) (row 12)).
  - unfold banks. right. apply in_eq.
  - unfold GPIOB. apply in_map. simpl. lia.
  - unfold GPIOB. apply in_map. simpl. lia.
  - simpl. lia.
Defined.

(** X10: every transition is idempotent: a pin already moved to a mode is
    left as it is by moving it there again. *)
Theorem into_mode_idempotent (m : mode) (bank : list pin) (p : pin)
    (r : gpio_regs) :
  In bank banks -> In p bank ->
  into_mode m p (into_mode m p r) = into_mode m p r.
Proof.
  intros Hb Hp. destruct (banks_pin_ok bank p Hb Hp) as [Hi Ha].
  destruct (into_mode_shape m p Hi Ha)
    as (fm & fo & fp & fl & fh & E & Lm & Lo & Lp & Ll & Lh).
  rewrite !E. cbn [moder otyper pupdr afrl afrh odr bsrr_log].
  f_equal; eapply local_idem; eauto.
Qed.

(** Witness for X10: PF9 to pull-down input, twice. *)
Lemma into_mode_idempotent_witness :
  into_mode PullDownInput (row 9)
    (into_mode PullDownInput (row 9) (mkRegs 4294967295 0 4294967295 0 0 0 []))
  = into_mode PullDownInput (row 9) (mkRegs 4294967295 0 4294967295 0 0 0 []).
Proof.
  apply (into_mode_idempotent PullDownInput GPIOF (row 9)).
  - unfold banks. do 5 right. apply in_eq.
  - unfold GPIOF. apply in_map. simpl. lia.
Defined.

Ltac effect_goal :=
  first [ apply setbit_same; lia
        | apply clearbit_same; lia
        | change 3 with (Z.ones 2);
          first [ apply field_rmw_same; lia
                | rewrite clear_as_rmw; apply field_rmw_same; lia ]
        | change 15 with (Z.ones 4); apply field_rmw_same; lia
        | intros ?; first [reflexivity | discriminate]
        | reflexivity ].

(** X11: what each transition writes for its own pin: MODER field 00 for
    the inputs, 01 for the outputs and 10 for the alternate functions;
    PUPDR field 00, 10 or 01 for floating, pull-down and pull-up input;
    OTYPER bit 1 for open drain and 0 for push-pull; the function number in
    the pin's AFR nibble. Registers a transition has no business with are
    left as they were: inputs keep OTYPER and both AFRs, outputs keep PUPDR
    and both AFRs, alternate functions keep OTYPER, PUPDR and the other AFR
    half; ODR and BSRR are never touched. *)
Theorem into_mode_effect (m : mode) (p : pin) (r : gpio_regs) :
  0 <= pin_i p < 16 ->
  let r' := into_mode m p r in
  mode_field (moder r') (pin_i p)
    = match m with
      | FloatingInput | PullDownInput | PullUpInput => 0
      | OpenDrainOutput | PushPullOutput => 1
      | AltFn4 | AltFn5 | AltFn6 | AltFn7 => 2
      end /\
  odr r' = odr r /\ bsrr_log r' = bsrr_log r /\
  match m with
  | FloatingInput =>
      pupd_field (pupdr r') (pin_i p) = 0 /\
      otyper r' = otyper r /\ afrl r' = afrl r /\ afrh r' = afrh r
  | PullDownInput =>
      pupd_field (pupdr r') (pin_i p) = 2 /\
      otyper r' = otyper r /\ afrl r' = afrl r /\ afrh r' = afrh r
  | PullUpInput =>
      pupd_field (pupdr r') (pin_i p) = 1 /\
      otyper r' = otyper r /\ afrl r' = afrl r /\ afrh r' = afrh r
  | OpenDrainOutput =>
      otype_bit (otyper r') (pin_i p) = true /\
      pupdr r' = pupdr r /\ afrl r' = afrl r /\ afrh r' = afrh r
  | PushPullOutput =>
      otype_bit (otyper r') (pin_i p) = false /\
      pupdr r' = pupdr r /\ afrl r' = afrl r /\ afrh r' = afrh r
  | AltFn4 | AltFn5 | AltFn6 | AltFn7 =>
      af_nibble r' (pin_afr p) (pin_i p)
        = match m with AltFn4 => 4 | AltFn5 => 5 | AltFn6 => 6 | _ => 7 end /\
      otyper r' = otyper r /\ pupdr r' = pupdr r /\
      (pin_afr p = AFRL -> afrh r' = afrh r) /\
      (pin_afr p = AFRH -> afrl r' = afrl r)
  end.
Proof.
  intros Hi. assert (H8 : 0 <= pin_i p mod 8 < 8)
    by (apply Z.mod_pos_bound; lia).
  cbv zeta.
  destruct m;
    unfold into_mode, as_floating_input, as_pull_down_input,
      as_pull_up_input, as_open_drain_output, as_push_pull_output,
      as_af4, as_af5, as_af6, as_af7, as_af, moder_set_mode,
      mode_field, pupd_field, otype_bit, af_nibble;
    cbv zeta;
    try destruct (pin_afr p);
    cbn [moder otyper pupdr afrl afrh odr bsrr_log read_afr write_afr
         set_moder set_otyper set_pupdr set_afrl set_afrh];
    repeat match goal with |- _ /\ _ => split end;
    effect_goal.
Qed.

(** Witness for X11: PC13 to open-drain output. *)
Lemma into_mode_effect_witness :
  otype_bit (otyper (into_mode OpenDrainOutput (row 13)
                       (mkRegs 0 0 0 0 0 0 []))) 13 = true.
Proof.
  destruct (into_mode_effect OpenDrainOutput (row 13) (mkRegs 0 0 0 0 0 0 [])
              ltac:(simpl; lia)) as (_ & _ & _ & H & _).
  exact H.
Defined.

(** A second read-modify-write of the same field overwrites the first. *)
Lemma rmw_rmw (v w a a' o : Z) :
  0 <= o -> 0 <= w -> o + w <= 32 -> 0 <= a' < 2 ^ w ->
  Z.lor (Z.land (Z.lor (Z.land v (u32_not (Z.shiftl (Z.ones w) o)))
                       (Z.shiftl a' o))
                (u32_not (Z.shiftl (Z.ones w) o)))
        (Z.shiftl a o)
  = Z.lor (Z.land v (u32_not (Z.shiftl (Z.ones w) o))) (Z.shiftl a o).
Proof.
  intros Ho Hw Hb Ha. apply Z.bits_inj'. intros q Hq. unfold u32_not.
  repeat rewrite ?Z.lor_spec, ?Z.land_spec, ?Z.lxor_spec.
  rewrite !Z.shiftl_spec by lia. rewrite !testbit_ones by lia.
  destruct (Z.leb_spec 0 (q - o)), (Z.ltb_spec (q - o) w),
           (Z.leb_spec 0 q), (Z.ltb_spec q 32); try lia; simpl;
    try rewrite (testbit_small a' w (q - o)) by lia;
    destruct (Z.testbit v q), (Z.testbit a (q - o)), (Z.testbit a' (q - o));
    reflexivity.
Qed.

Lemma internal_pull_up_rmw (p : pin) (on : bool) (r : gpio_regs) :
  internal_pull_up p on r
  = set_pupdr r (Z.lor (Z.land (pupdr r)
                               (u32_not (Z.shiftl (Z.ones 2) (2 * pin_i p))))
                       (Z.shiftl (if on then 1 else 0) (2 * pin_i p))).
Proof.
  unfold internal_pull_up. destruct on; [reflexivity|].
  rewrite Z.shiftl_0_l. reflexivity.
Qed.

(** X12: [internal_pull_up] writes 01 (on) or 00 (off) into the pin's PUPDR
    field, keeps the pull fields of the other pins and every other
    register, and the last call wins. *)
Theorem internal_pull_up_spec (p : pin) (on on' : bool) (r : gpio_regs) :
  0 <= pin_i p < 16 ->
  pupd_field (pupdr (internal_pull_up p on r)) (pin_i p)
    = (if on then 1 else 0) /\
  (forall j, 0 <= j < 16 -> j <> pin_i p ->
     pupd_field (pupdr (internal_pull_up p on r)) j = pupd_field (pupdr r) j) /\
  internal_pull_up p on r = set_pupdr r (pupdr (internal_pull_up p on r)) /\
  internal_pull_up p on (internal_pull_up p on' r) = internal_pull_up p on r.
Proof.
  intros Hi. rewrite !internal_pull_up_rmw. cbn [pupdr set_pupdr].
  unfold pupd_field. change 3 with (Z.ones 2).
  split; [apply field_rmw_same; destruct on; cbv beta iota; lia|].
  split; [intros j Hj Hne; apply field_rmw_other;
          destruct on; cbv beta iota; lia|].
  split; [reflexivity|].
  unfold set_pupdr. cbn [moder otyper afrl afrh odr bsrr_log].
  rewrite rmw_rmw by (destruct on'; cbv beta iota; lia). reflexivity.
Qed.

(** Witness for X12: enabling, then disabling, the pull-up of PA5. *)
Lemma internal_pull_up_spec_witness :
  internal_pull_up (row 5) false
    (internal_pull_up (row 5) true (mkRegs 0 0 4294967295 0 0 0 []))
  = internal_pull_up (row 5) false (mkRegs 0 0 4294967295 0 0 0 []).
Proof.
  destruct (internal_pull_up_spec (row 5) false true
              (mkRegs 0 0 4294967295 0 0 0 []) ltac:(simpl; lia))
    as (_ & _ & _ & H).
  exact H.
Defined.



(** X14: calling [split] again leaves AHBENR and AHBRSTR as one call left
    them. *)
Theorem split_idempotent (ken krst : Z) (a : ahb_regs) :
  fst (split ken krst (fst (split ken krst a))) = fst (split ken krst a).
Proof.
  unfold split. cbn [fst ahbenr ahbrstr]. f_equal.
  - rewrite <- Z.lor_assoc, Z.lor_diag. reflexivity.
  - apply Z.bits_inj'. intros q Hq.
    repeat rewrite ?Z.land_spec, ?Z.lor_spec.
    destruct (Z.testbit (ahbrstr a) q), (Z.testbit (Z.shiftl 1 krst) q),
             (Z.testbit (u32_not (Z.shiftl 1 krst)) q); reflexivity.
Qed.



End GpioExtra.
